(** * Transaction construction of the Algorand Go SDK (package [transaction])

    A shallow embedding of the constructors [MakePaymentTxn],
    [MakeKeyRegTxn], [MakeAssetCreateTxn], their flat-fee variants,
    [AssignGroupID], [byte32FromBase64] and of the builder method
    [TransactionBuilder.buildT], followed by the properties of the
    specification stated on them.

    Conventions.
    - A Go [uint64] is a [Z]; arithmetic that can leave the range is wrapped
      by [uint64] explicitly.
    - A Go byte array [[n]byte] and a byte slice are [list byte]; the zero
      array is [zeroBytes n].
    - A Go result pair [(T, error)] is a pair [T * option error]: the
      value is handed back together with the error, as in Go.
    - Code that draws randomness threads an [Entropy] state, code that
      reads and appends slices threads the store of backing arrays, code
      that writes through pointers threads the store of objects and may
      panic. *)

From Stdlib Require Import ZArith Lia.
From Stdlib Require Import Strings.Ascii Strings.String Strings.Byte.
From stdpp Require Import base option list gmap strings pretty.

Local Open Scope Z_scope.

(** ** Basic Go data *)

Definition error := string.

Definition uint64 (z : Z) : Z := z mod 2 ^ 64.

Definition zeroBytes (n : nat) : list byte := replicate n x00.

(** Go's builtin [copy(dst, src)] on byte slices: the first
    [min (len dst) (len src)] bytes of [dst] are overwritten. *)
Definition copy (dst src : list byte) : list byte :=
  take (length dst) src ++ drop (length src) dst.

(** [bytes.Compare]: lexicographic comparison, result in {-1, 0, 1}. *)
Fixpoint bytes_Compare (a b : list byte) : Z :=
  match a, b with
  | [], [] => 0
  | [], _ :: _ => -1
  | _ :: _, [] => 1
  | x :: a', y :: b' =>
      match N.compare (Byte.to_N x) (Byte.to_N y) with
      | Eq => bytes_Compare a' b'
      | Lt => -1
      | Gt => 1
      end
  end.

(** ** Package [types] *)

Module types.

(** [Address] and [Digest] are [[32]byte]. *)
Definition Address := list byte.
Definition Digest := list byte.
Definition zeroAddress : Address := zeroBytes 32.
Definition zeroDigest : Digest := zeroBytes 32.

(** [TxType] is a Go string with one constant per kind; [NoTx] is the
    zero value (the empty string). *)
Inductive TxType :=
| NoTx
| PaymentTx
| KeyRegistrationTx
| AssetConfigTx
| AssetTransferTx
| AssetFreezeTx
| ApplicationCallTx.

Record Header := mkHeader {
  Sender : Address;
  Fee : Z;
  FirstValid : Z;
  LastValid : Z;
  Note : list byte;
  GenesisID : string;
  GenesisHash : Digest;
  Group : Digest
}.

Record KeyregTxnFields := mkKeyregTxnFields {
  VotePK : list byte;
  SelectionPK : list byte;
  VoteFirst : Z;
  VoteLast : Z;
  VoteKeyDilution : Z
}.

Record PaymentTxnFields := mkPaymentTxnFields {
  Receiver : Address;
  Amount : Z;
  CloseRemainderTo : Address
}.

Record AssetParams := mkAssetParams {
  Total : Z;
  DefaultFrozen : bool;
  UnitName : list byte;
  AssetName : list byte;
  Manager : Address;
  Reserve : Address;
  Freeze : Address;
  Clawback : Address
}.

Record AssetConfigTxnFields := mkAssetConfigTxnFields {
  AssetParams_ : AssetParams
}.

(** The declarations of package [types] are outside the translated
    files.  The field groups whose fields the constructors never touch
    are kept abstract, each with its Go zero value, and so are the
    lengths of the two fixed name arrays of [AssetParams]. *)
Class Decls := {
  AssetTransferTxnFields : Type;
  AssetFreezeTxnFields : Type;
  ApplicationCallTxnFields : Type;
  zeroAssetTransferTxnFields : AssetTransferTxnFields;
  zeroAssetFreezeTxnFields : AssetFreezeTxnFields;
  zeroApplicationCallTxnFields : ApplicationCallTxnFields;
  UnitNameLen : nat;
  AssetNameLen : nat
}.

(** [DecodeAddress] of package [types]: the checksummed-string decoder.
    It hands back an address together with the error, as in Go. *)
Class AddressCodec := {
  DecodeAddress : string -> Address * option error
}.

Section Transaction.
Context {D : Decls}.

(** The struct embeds its field groups; an embedded field carries the
    name of its type, written here with a trailing underscore. *)
Record Transaction := mkTransaction {
  Type_ : TxType;
  Header_ : Header;
  KeyregTxnFields_ : KeyregTxnFields;
  PaymentTxnFields_ : PaymentTxnFields;
  AssetConfigTxnFields_ : AssetConfigTxnFields;
  AssetTransferTxnFields_ : AssetTransferTxnFields;
  AssetFreezeTxnFields_ : AssetFreezeTxnFields;
  ApplicationCallTxnFields_ : ApplicationCallTxnFields
}.

(** Zero values, [T{}] in Go. *)
Definition zeroHeader : Header :=
  mkHeader zeroAddress 0 0 0 [] "" zeroDigest zeroDigest.

Definition zeroKeyregTxnFields : KeyregTxnFields :=
  mkKeyregTxnFields (zeroBytes 32) (zeroBytes 32) 0 0 0.

Definition zeroPaymentTxnFields : PaymentTxnFields :=
  mkPaymentTxnFields zeroAddress 0 zeroAddress.

Definition zeroAssetParams : AssetParams :=
  mkAssetParams 0 false (zeroBytes UnitNameLen) (zeroBytes AssetNameLen)
    zeroAddress zeroAddress zeroAddress zeroAddress.

Definition zeroAssetConfigTxnFields : AssetConfigTxnFields :=
  mkAssetConfigTxnFields zeroAssetParams.

Definition zeroTransaction : Transaction :=
  mkTransaction NoTx zeroHeader zeroKeyregTxnFields zeroPaymentTxnFields
    zeroAssetConfigTxnFields zeroAssetTransferTxnFields
    zeroAssetFreezeTxnFields zeroApplicationCallTxnFields.

(** Field assignments [tx.F = v].  Fields of embedded structs are
    promoted in Go, so [tx.Fee] is [tx.Header.Fee]. *)
Definition set_Type (v : TxType) (tx : Transaction) : Transaction :=
  mkTransaction v (Header_ tx) (KeyregTxnFields_ tx) (PaymentTxnFields_ tx)
    (AssetConfigTxnFields_ tx) (AssetTransferTxnFields_ tx)
    (AssetFreezeTxnFields_ tx) (ApplicationCallTxnFields_ tx).

Definition set_Header (v : Header) (tx : Transaction) : Transaction :=
  mkTransaction (Type_ tx) v (KeyregTxnFields_ tx) (PaymentTxnFields_ tx)
    (AssetConfigTxnFields_ tx) (AssetTransferTxnFields_ tx)
    (AssetFreezeTxnFields_ tx) (ApplicationCallTxnFields_ tx).

Definition set_KeyregTxnFields (v : KeyregTxnFields) (tx : Transaction)
  : Transaction :=
  mkTransaction (Type_ tx) (Header_ tx) v (PaymentTxnFields_ tx)
    (AssetConfigTxnFields_ tx) (AssetTransferTxnFields_ tx)
    (AssetFreezeTxnFields_ tx) (ApplicationCallTxnFields_ tx).

Definition set_PaymentTxnFields (v : PaymentTxnFields) (tx : Transaction)
  : Transaction :=
  mkTransaction (Type_ tx) (Header_ tx) (KeyregTxnFields_ tx) v
    (AssetConfigTxnFields_ tx) (AssetTransferTxnFields_ tx)
    (AssetFreezeTxnFields_ tx) (ApplicationCallTxnFields_ tx).

Definition set_AssetConfigTxnFields (v : AssetConfigTxnFields)
  (tx : Transaction) : Transaction :=
  mkTransaction (Type_ tx) (Header_ tx) (KeyregTxnFields_ tx)
    (PaymentTxnFields_ tx) v (AssetTransferTxnFields_ tx)
    (AssetFreezeTxnFields_ tx) (ApplicationCallTxnFields_ tx).

Definition set_AssetTransferTxnFields (v : AssetTransferTxnFields)
  (tx : Transaction) : Transaction :=
  mkTransaction (Type_ tx) (Header_ tx) (KeyregTxnFields_ tx)
    (PaymentTxnFields_ tx) (AssetConfigTxnFields_ tx) v
    (AssetFreezeTxnFields_ tx) (ApplicationCallTxnFields_ tx).

Definition set_AssetFreezeTxnFields (v : AssetFreezeTxnFields)
  (tx : Transaction) : Transaction :=
  mkTransaction (Type_ tx) (Header_ tx) (KeyregTxnFields_ tx)
    (PaymentTxnFields_ tx) (AssetConfigTxnFields_ tx)
    (AssetTransferTxnFields_ tx) v (ApplicationCallTxnFields_ tx).

Definition set_ApplicationCallTxnFields (v : ApplicationCallTxnFields)
  (tx : Transaction) : Transaction :=
  mkTransaction (Type_ tx) (Header_ tx) (KeyregTxnFields_ tx)
    (PaymentTxnFields_ tx) (AssetConfigTxnFields_ tx)
    (AssetTransferTxnFields_ tx) (AssetFreezeTxnFields_ tx) v.

Definition Header_set_Fee (v : Z) (h : Header) : Header :=
  mkHeader (Sender h) v (FirstValid h) (LastValid h) (Note h) (GenesisID h)
    (GenesisHash h) (Group h).

Definition Header_set_Group (v : Digest) (h : Header) : Header :=
  mkHeader (Sender h) (Fee h) (FirstValid h) (LastValid h) (Note h)
    (GenesisID h) (GenesisHash h) v.

Definition set_Fee (v : Z) (tx : Transaction) : Transaction :=
  set_Header (Header_set_Fee v (Header_ tx)) tx.

Definition set_Group (v : Digest) (tx : Transaction) : Transaction :=
  set_Header (Header_set_Group v (Header_ tx)) tx.

(** [tx.AssetParams = p] and [tx.AssetParams.F = v]. *)
Definition AssetParams_of (tx : Transaction) : AssetParams :=
  AssetParams_ (AssetConfigTxnFields_ tx).

Definition set_AssetParams (p : AssetParams) (tx : Transaction)
  : Transaction :=
  set_AssetConfigTxnFields (mkAssetConfigTxnFields p) tx.

Definition set_UnitName (v : list byte) (tx : Transaction) : Transaction :=
  let p := AssetParams_of tx in
  set_AssetParams
    (mkAssetParams (Total p) (DefaultFrozen p) v (AssetName p) (Manager p)
       (Reserve p) (Freeze p) (Clawback p)) tx.

Definition set_AssetName (v : list byte) (tx : Transaction) : Transaction :=
  let p := AssetParams_of tx in
  set_AssetParams
    (mkAssetParams (Total p) (DefaultFrozen p) (UnitName p) v (Manager p)
       (Reserve p) (Freeze p) (Clawback p)) tx.

Definition set_Manager (v : Address) (tx : Transaction) : Transaction :=
  let p := AssetParams_of tx in
  set_AssetParams
    (mkAssetParams (Total p) (DefaultFrozen p) (UnitName p) (AssetName p) v
       (Reserve p) (Freeze p) (Clawback p)) tx.

Definition set_Reserve (v : Address) (tx : Transaction) : Transaction :=
  let p := AssetParams_of tx in
  set_AssetParams
    (mkAssetParams (Total p) (DefaultFrozen p) (UnitName p) (AssetName p)
       (Manager p) v (Freeze p) (Clawback p)) tx.

Definition set_Freeze (v : Address) (tx : Transaction) : Transaction :=
  let p := AssetParams_of tx in
  set_AssetParams
    (mkAssetParams (Total p) (DefaultFrozen p) (UnitName p) (AssetName p)
       (Manager p) (Reserve p) v (Clawback p)) tx.

Definition set_Clawback (v : Address) (tx : Transaction) : Transaction :=
  let p := AssetParams_of tx in
  set_AssetParams
    (mkAssetParams (Total p) (DefaultFrozen p) (UnitName p) (AssetName p)
       (Manager p) (Reserve p) (Freeze p) v) tx.

End Transaction.

End types.

(** ** Package [crypto] *)

Module crypto.

Record Account := mkAccount {
  Address : types.Address;
  PublicKey : list byte;
  PrivateKey : list byte
}.

(** The signing collaborator.  [GenerateAccount] draws a fresh key from
    the system's random source, threaded here as [Entropy];
    [SignTransaction] hands back the transaction id, the signed encoding
    and the error; [ComputeGroupID] hashes the encodings of a list of
    transactions, in order. *)
Class Signer {D : types.Decls} := {
  Entropy : Type;
  GenerateAccount : Entropy -> Account * Entropy;
  SignTransaction :
    list byte -> types.Transaction -> string * list byte * option error;
  ComputeGroupID : list types.Transaction -> types.Digest * option error
}.

End crypto.

(** ** Package [encoding/base64] *)

Module base64.

(** [base64.StdEncoding.DecodeString]. *)
Class StdEncoding := {
  DecodeString : string -> list byte * option error
}.

End base64.

(** ** Package [transaction]: the constructors *)

Import types.

(** [MinTxnFee] is v5 consensus params, in microAlgos. *)
Definition MinTxnFee : Z := 1000.

(** A Go function that draws randomness: it threads the entropy. *)
Definition Rand {D : Decls} {Sg : crypto.Signer} (A : Type) : Type :=
  crypto.Entropy -> A * crypto.Entropy.

(** [if err != nil { return r }], followed by the rest of the body. *)
Notation "'if_err' err 'return_' r ; k" :=
  (match err with Some _ => r | None => k end)
  (at level 10, err at level 9, r at level 9, k at level 200,
   format "'[v' 'if_err'  err  'return_'  r ; '/' k ']'").

Section Constructors.
Context {D : Decls} {C : AddressCodec} {Sg : crypto.Signer}
  {B : base64.StdEncoding}.

(** [estimateSize] returns the estimated length of the encoded
    transaction: it signs the transaction with a key generated for the
    purpose and measures the signed encoding. *)
Definition estimateSize (txn : Transaction) : Rand (Z * option error) :=
  fun rng =>
    let '(key, rng) := crypto.GenerateAccount rng in
    let '(_, stx, err) := crypto.SignTransaction (crypto.PrivateKey key) txn in
    if_err err return_ ((0, err), rng);
    ((uint64 (Z.of_nat (length stx)), None), rng).

(** [byte32FromBase64] decodes the input base64 string and outputs a
    32 byte array, erroring if the input is the wrong length.  The named
    result [out] starts as the zero array. *)
Definition byte32FromBase64 (in_ : string) : list byte * option error :=
  let out := zeroBytes 32 in
  let '(slice, err) := base64.DecodeString in_ in
  if_err err return_ (out, err);
  if bool_decide (length slice ≠ 32%nat)
  then (out, Some "Input is not 32 bytes")
  else (copy out slice, None).

Definition MakePaymentTxn (from to : string)
  (fee amount firstRound lastRound : Z) (note : list byte)
  (closeRemainderTo genesisID : string) (genesisHash : list byte)
  : Rand (Transaction * option error) :=
  fun rng =>
    (* Decode from address *)
    let '(fromAddr, err) := DecodeAddress from in
    if_err err return_ ((zeroTransaction, err), rng);
    (* Decode to address *)
    let '(toAddr, err) := DecodeAddress to in
    if_err err return_ ((zeroTransaction, err), rng);
    (* Decode the CloseRemainderTo address, if present *)
    let '(closeRemainderToAddr, err) :=
      if bool_decide (closeRemainderTo ≠ "")
      then DecodeAddress closeRemainderTo
      else (zeroAddress, None) in
    if_err err return_ ((zeroTransaction, err), rng);
    (* Decode GenesisHash *)
    if bool_decide (length genesisHash = 0%nat)
    then ((zeroTransaction,
           Some "payment transaction must contain a genesisHash"), rng)
    else
    let gh := copy zeroDigest genesisHash in
    (* Build the transaction *)
    let tx :=
      mkTransaction PaymentTx
        (mkHeader fromAddr fee firstRound lastRound note genesisID gh
           zeroDigest)
        zeroKeyregTxnFields
        (mkPaymentTxnFields toAddr amount closeRemainderToAddr)
        zeroAssetConfigTxnFields zeroAssetTransferTxnFields
        zeroAssetFreezeTxnFields zeroApplicationCallTxnFields in
    (* Update fee *)
    let '((eSize, err), rng) := estimateSize tx rng in
    if_err err return_ ((zeroTransaction, err), rng);
    let tx := set_Fee (uint64 (eSize * fee)) tx in
    let tx :=
      if Fee (Header_ tx) <? MinTxnFee then set_Fee MinTxnFee tx else tx in
    ((tx, None), rng).

Definition MakePaymentTxnWithFlatFee (from to : string)
  (fee amount firstRound lastRound : Z) (note : list byte)
  (closeRemainderTo genesisID : string) (genesisHash : list byte)
  : Rand (Transaction * option error) :=
  fun rng =>
    let '((tx, err), rng) :=
      MakePaymentTxn from to fee amount firstRound lastRound note
        closeRemainderTo genesisID genesisHash rng in
    if_err err return_ ((zeroTransaction, err), rng);
    let tx := set_Fee fee tx in
    let tx :=
      if Fee (Header_ tx) <? MinTxnFee then set_Fee MinTxnFee tx else tx in
    ((tx, None), rng).

Definition MakeKeyRegTxn (account : string)
  (feePerByte firstRound lastRound : Z) (note : list byte)
  (genesisID genesisHash voteKey selectionKey : string)
  (voteFirst voteLast voteKeyDilution : Z)
  : Rand (Transaction * option error) :=
  fun rng =>
    (* Decode account address *)
    let '(accountAddr, err) := DecodeAddress account in
    if_err err return_ ((zeroTransaction, err), rng);
    let '(ghBytes, err) := byte32FromBase64 genesisHash in
    if_err err return_ ((zeroTransaction, err), rng);
    let '(votePKBytes, err) := byte32FromBase64 voteKey in
    if_err err return_ ((zeroTransaction, err), rng);
    let '(selectionPKBytes, err) := byte32FromBase64 selectionKey in
    if_err err return_ ((zeroTransaction, err), rng);
    let tx :=
      mkTransaction KeyRegistrationTx
        (mkHeader accountAddr feePerByte firstRound lastRound note genesisID
           ghBytes zeroDigest)
        (mkKeyregTxnFields votePKBytes selectionPKBytes voteFirst voteLast
           voteKeyDilution)
        zeroPaymentTxnFields zeroAssetConfigTxnFields
        zeroAssetTransferTxnFields zeroAssetFreezeTxnFields
        zeroApplicationCallTxnFields in
    (* Update fee *)
    let '((eSize, err), rng) := estimateSize tx rng in
    if_err err return_ ((zeroTransaction, err), rng);
    let tx := set_Fee (uint64 (eSize * feePerByte)) tx in
    let tx :=
      if Fee (Header_ tx) <? MinTxnFee then set_Fee MinTxnFee tx else tx in
    ((tx, None), rng).

Definition MakeKeyRegTxnWithFlatFee (account : string)
  (fee firstRound lastRound : Z) (note : list byte)
  (genesisID genesisHash voteKey selectionKey : string)
  (voteFirst voteLast voteKeyDilution : Z)
  : Rand (Transaction * option error) :=
  fun rng =>
    let '((tx, err), rng) :=
      MakeKeyRegTxn account fee firstRound lastRound note genesisID
        genesisHash voteKey selectionKey voteFirst voteLast voteKeyDilution
        rng in
    if_err err return_ ((zeroTransaction, err), rng);
    let tx := set_Fee fee tx in
    let tx :=
      if Fee (Header_ tx) <? MinTxnFee then set_Fee MinTxnFee tx else tx in
    ((tx, None), rng).

Definition MakeAssetCreateTxn (account : string)
  (feePerByte firstRound lastRound : Z) (note : list byte)
  (genesisID genesisHash : string) (total : Z) (defaultFrozen : bool)
  (manager reserve freeze clawback unitName assetName : string)
  : Rand (Transaction * option error) :=
  fun rng =>
    let tx := zeroTransaction in
    let tx := set_Type AssetConfigTx tx in
    let tx :=
      set_AssetParams
        (mkAssetParams total defaultFrozen (zeroBytes UnitNameLen)
           (zeroBytes AssetNameLen) zeroAddress zeroAddress zeroAddress
           zeroAddress) tx in
    let '(tx, err) :=
      if bool_decide (manager ≠ "")
      then let '(a, err) := DecodeAddress manager in (set_Manager a tx, err)
      else (tx, None) in
    if_err err return_ ((tx, err), rng);
    let '(tx, err) :=
      if bool_decide (reserve ≠ "")
      then let '(a, err) := DecodeAddress reserve in (set_Reserve a tx, err)
      else (tx, None) in
    if_err err return_ ((tx, err), rng);
    let '(tx, err) :=
      if bool_decide (freeze ≠ "")
      then let '(a, err) := DecodeAddress freeze in (set_Freeze a tx, err)
      else (tx, None) in
    if_err err return_ ((tx, err), rng);
    let '(tx, err) :=
      if bool_decide (clawback ≠ "")
      then let '(a, err) := DecodeAddress clawback in (set_Clawback a tx, err)
      else (tx, None) in
    if_err err return_ ((tx, err), rng);
    if bool_decide
         (length (UnitName (AssetParams_of tx)) < String.length unitName)%nat
    then ((tx,
           Some ("asset unit name " +:+ unitName +:+ " too long (max "
                 +:+ pretty (length (UnitName (AssetParams_of tx)))
                 +:+ " bytes)")), rng)
    else
    let tx :=
      set_UnitName
        (copy (UnitName (AssetParams_of tx)) (list_byte_of_string unitName))
        tx in
    if bool_decide
         (length (AssetName (AssetParams_of tx)) < String.length assetName)%nat
    then ((tx,
           Some ("asset name " +:+ assetName +:+ " too long (max "
                 +:+ pretty (length (AssetName (AssetParams_of tx)))
                 +:+ " bytes)")), rng)
    else
    let tx :=
      set_AssetName
        (copy (AssetName (AssetParams_of tx)) (list_byte_of_string assetName))
        tx in
    (* Fill in header *)
    let '(accountAddr, err) := DecodeAddress account in
    if_err err return_ ((zeroTransaction, err), rng);
    let '(ghBytes, err) := byte32FromBase64 genesisHash in
    if_err err return_ ((zeroTransaction, err), rng);
    let tx :=
      set_Header
        (mkHeader accountAddr feePerByte firstRound lastRound note genesisID
           ghBytes zeroDigest) tx in
    (* Update fee *)
    let '((eSize, err), rng) := estimateSize tx rng in
    if_err err return_ ((zeroTransaction, err), rng);
    let tx := set_Fee (uint64 (eSize * feePerByte)) tx in
    ((tx, None), rng).

Definition MakeAssetCreateTxnWithFlatFee (account : string)
  (fee firstRound lastRound : Z) (note : list byte)
  (genesisID genesisHash : string) (total : Z) (defaultFrozen : bool)
  (manager reserve freeze clawback unitName assetName : string)
  : Rand (Transaction * option error) :=
  fun rng =>
    let '((tx, err), rng) :=
      MakeAssetCreateTxn account fee firstRound lastRound note genesisID
        genesisHash total defaultFrozen manager reserve freeze clawback
        unitName assetName rng in
    if_err err return_ ((zeroTransaction, err), rng);
    let tx := set_Fee fee tx in
    let tx :=
      if Fee (Header_ tx) <? MinTxnFee then set_Fee MinTxnFee tx else tx in
    ((tx, None), rng).

End Constructors.

(** ** Slices of transactions and [AssignGroupID] *)

(** A slice value points into a backing array held in the store; [nil]
    has no backing array.  [Slice a off len cap] covers the elements
    [off .. off+len-1] of the array at [a], with room up to [off+cap]. *)
Definition loc := positive.

Inductive slice :=
| nilSlice
| Slice (arr : loc) (off len cap : nat).

Definition slice_len (s : slice) : nat :=
  match s with nilSlice => 0 | Slice _ _ len _ => len end.

Section Slices.
Context {D : Decls} {C : AddressCodec} {Sg : crypto.Signer}.

(** What the runtime adds to the capacity when [append] reallocates is
    its own choice; the model leaves it open. *)
Variable growslice : nat -> nat.

Local Abbreviation Store := (gmap loc (list Transaction)).

(** The elements a slice denotes in a store. *)
Definition slice_elems (m : Store) (s : slice) : list Transaction :=
  match s with
  | nilSlice => []
  | Slice a off len _ => take len (drop off (default [] (m !! a)))
  end.

(** [s[i]], read from the store as it is now. *)
Definition slice_index (m : Store) (s : slice) (i : nat) : Transaction :=
  match s with
  | nilSlice => zeroTransaction
  | Slice a off _ _ =>
      default zeroTransaction (default [] (m !! a) !! (off + i)%nat)
  end.

(** Go's builtin [append(s, tx)]: written in place when the capacity
    allows, otherwise the elements move to a newly allocated array. *)
Definition append (s : slice) (tx : Transaction) (m : Store)
  : slice * Store :=
  match s with
  | Slice a off len cap =>
      if bool_decide (len < cap)%nat
      then (Slice a off (len + 1) cap,
            <[a := <[(off + len)%nat := tx]> (default [] (m !! a))]> m)
      else
        let a' := fresh (dom m) in
        let spare := growslice len in
        (Slice a' 0 (len + 1) (len + 1 + spare),
         <[a' := slice_elems m s ++ [tx] ++ replicate spare zeroTransaction]>
           m)
  | nilSlice =>
      let a' := fresh (dom m) in
      let spare := growslice 0 in
      (Slice a' 0 1 (1 + spare),
       <[a' := [tx] ++ replicate spare zeroTransaction]> m)
  end.

(** The body of [for _, tx := range txns], [n] iterations from index
    [i]: [tx] is a copy of the element, the copy gets the group and is
    appended to [result]. *)
Fixpoint AssignGroupID_range (n i : nat) (txns : slice) (account : string)
  (decoded : Address) (gid : Digest) (result : slice) (m : Store)
  : slice * Store :=
  match n with
  | O => (result, m)
  | S n' =>
      let tx := slice_index m txns i in
      let '(result, m) :=
        if bool_decide (account = "")
           || bool_decide (bytes_Compare (Sender (Header_ tx)) decoded = 0)
        then
          let tx := set_Group gid tx in
          append result tx m
        else (result, m) in
      AssignGroupID_range n' (i + 1) txns account decoded gid result m
  end.

(** [AssignGroupID] computes and returns the list of transactions with
    the Group field set.  [account] specifies a sender of the
    transactions to return; the empty string returns all of them. *)
Definition AssignGroupID (txns : slice) (account : string) (m : Store)
  : (slice * option error) * Store :=
  let result := nilSlice in
  let '(gid, err) := crypto.ComputeGroupID (slice_elems m txns) in
  if_err err return_ ((result, err), m);
  let '(decoded, err) :=
    if bool_decide (account ≠ "")
    then DecodeAddress account
    else (zeroAddress, None) in
  if_err err return_ ((result, err), m);
  let '(result, m) :=
    AssignGroupID_range (slice_len txns) 0 txns account decoded gid result m
  in
  ((result, None), m).

(** A slice is well formed in a store when its array is allocated and
    long enough. *)
Definition slice_valid (m : Store) (s : slice) : Prop :=
  match s with
  | nilSlice => True
  | Slice a off len cap =>
      (len <= cap)%nat /\
      exists arr, m !! a = Some arr /\ (off + cap <= length arr)%nat
  end.

End Slices.

(** ** [TransactionBuilder] *)

(** Outcome of Go code that can panic. *)
Inductive outcome (A : Type) :=
| Done (a : A)
| Panic (msg : string).
Arguments Done {A} a.
Arguments Panic {A} msg.

Definition nilDereference : string :=
  "invalid memory address or nil pointer dereference".

Module TransactionBuilder.
Section Builder.
Context {D : Decls}.

Record t := mk {
  Type_ : TxType;
  Header_ : Header;
  KeyregTxnFields_ : KeyregTxnFields;
  PaymentTxnFields_ : PaymentTxnFields;
  AssetConfigTxnFields_ : AssetConfigTxnFields;
  AssetTransferTxnFields_ : AssetTransferTxnFields;
  AssetFreezeTxnFields_ : AssetFreezeTxnFields;
  ApplicationCallTxnFields_ : ApplicationCallTxnFields
}.

End Builder.
End TransactionBuilder.

Section BuildT.
Context {D : Decls}.

(** Pointers to transactions: [None] is [nil], [Some l] points to the
    object at [l] of the object store.  The receiver [tb] is only read,
    so it is given by the builder it points to, [None] for [nil]. *)
Definition ptr := option loc.

Local Abbreviation Heap := (gmap loc Transaction).

(** One statement [tx.F = tb.F]: both pointers are dereferenced. *)
Definition assign_field (tx : ptr) (tb : option TransactionBuilder.t)
  (set : TransactionBuilder.t -> Transaction -> Transaction) (h : Heap)
  : outcome Heap :=
  match tx, tb with
  | Some l, Some b =>
      match h !! l with
      | Some obj => Done (<[l := set b obj]> h)
      | None => Panic nilDereference
      end
  | _, _ => Panic nilDereference
  end.

Definition then_ (c : outcome Heap) (k : Heap -> outcome Heap)
  : outcome Heap :=
  match c with
  | Done h => k h
  | Panic msg => Panic msg
  end.

(** The statements of [buildT], for a result variable [tx]. *)
Definition buildT_body (tx : ptr) (tb : option TransactionBuilder.t)
  (h : Heap) : outcome (ptr * Heap) :=
  let r :=
    then_ (assign_field tx tb
             (fun b => set_Type (TransactionBuilder.Type_ b)) h) (fun h =>
    then_ (assign_field tx tb
             (fun b => set_KeyregTxnFields
                         (TransactionBuilder.KeyregTxnFields_ b)) h) (fun h =>
    then_ (assign_field tx tb
             (fun b => set_PaymentTxnFields
                         (TransactionBuilder.PaymentTxnFields_ b)) h) (fun h =>
    then_ (assign_field tx tb
             (fun b => set_AssetConfigTxnFields
                         (TransactionBuilder.AssetConfigTxnFields_ b)) h)
      (fun h =>
    then_ (assign_field tx tb
             (fun b => set_AssetTransferTxnFields
                         (TransactionBuilder.AssetTransferTxnFields_ b)) h)
      (fun h =>
    then_ (assign_field tx tb
             (fun b => set_AssetFreezeTxnFields
                         (TransactionBuilder.AssetFreezeTxnFields_ b)) h)
      (fun h =>
    assign_field tx tb
      (fun b => set_ApplicationCallTxnFields
                  (TransactionBuilder.ApplicationCallTxnFields_ b)) h))))))
  in
  match r with
  | Done h => Done (tx, h)
  | Panic msg => Panic msg
  end.

(** [buildT]: the named result [tx] is a pointer variable, [nil] when
    the body starts; nothing allocates it. *)
Definition buildT (tb : option TransactionBuilder.t) (h : Heap)
  : outcome (ptr * Heap) :=
  let tx : ptr := None in
  buildT_body tx tb h.

(** [ApplicationBaseTransactionBuilder] embeds [TransactionBuilder],
    [ApplicationUpdateTransactionBuilder] embeds the former; [buildBT]
    and [build] hand over to [buildT]. *)
Record ApplicationBaseTransactionBuilder := mkApplicationBase {
  TransactionBuilder_ : TransactionBuilder.t
}.

Record ApplicationUpdateTransactionBuilder := mkApplicationUpdate {
  ApplicationBaseTransactionBuilder_ : ApplicationBaseTransactionBuilder
}.

Definition buildBT (abtb : option ApplicationBaseTransactionBuilder)
  (h : Heap) : outcome (ptr * Heap) :=
  buildT (TransactionBuilder_ <$> abtb) h.

Definition build (aupd : option ApplicationUpdateTransactionBuilder)
  (h : Heap) : outcome (ptr * Heap) :=
  buildBT (ApplicationBaseTransactionBuilder_ <$> aupd) h.

End BuildT.

(** ** A concrete environment

    One inhabitant of each collaborator interface, small enough to
    evaluate the constructors on concrete inputs. *)

Module sample.

Definition decls : Decls := {|
  AssetTransferTxnFields := unit;
  AssetFreezeTxnFields := unit;
  ApplicationCallTxnFields := unit;
  zeroAssetTransferTxnFields := tt;
  zeroAssetFreezeTxnFields := tt;
  zeroApplicationCallTxnFields := tt;
  UnitNameLen := 8;
  AssetNameLen := 32
|}.

(** Accepts the strings of 58 characters, the length of a checksummed
    address, and keeps their first 32 bytes. *)
Definition codec : AddressCodec := {|
  DecodeAddress s :=
    if bool_decide (String.length s = 58%nat)
    then (take 32 (list_byte_of_string s), None)
    else (zeroAddress, Some "decoded address is the wrong length")
|}.

(** Signed encoding: a 64-byte signature followed by the sender, the
    note and the genesis hash.  A transaction without a type cannot be
    encoded. *)
Definition sign (sk : list byte) (tx : @Transaction decls)
  : string * list byte * option error :=
  match Type_ tx with
  | NoTx => ("", [], Some "transaction has no type")
  | _ =>
      ("",
       take 64 (sk ++ zeroBytes 64) ++ Sender (Header_ tx)
         ++ Note (Header_ tx) ++ GenesisHash (Header_ tx),
       None)
  end.

Definition groupID (txgroup : list (@Transaction decls))
  : Digest * option error :=
  match txgroup with
  | [] => (zeroDigest, Some "empty transaction group")
  | _ =>
      (take 32 (concat (map (fun tx => Sender (Header_ tx)) txgroup)
                ++ zeroBytes 32), None)
  end.

Definition signer : @crypto.Signer decls := {|
  crypto.Entropy := nat;
  crypto.GenerateAccount n :=
    (crypto.mkAccount zeroAddress (zeroBytes 32)
       (replicate 64 (default x00 (Byte.of_N (N.of_nat n mod 256)))),
     Datatypes.S n);
  crypto.SignTransaction := sign;
  crypto.ComputeGroupID := groupID
|}.

(** The standard base64 alphabet with [=] padding. *)
Definition b64_value (c : ascii) : option N :=
  let n := N_of_ascii c in
  if (65 <=? n)%N && (n <=? 90)%N then Some (n - 65)%N
  else if (97 <=? n)%N && (n <=? 122)%N then Some (n - 71)%N
  else if (48 <=? n)%N && (n <=? 57)%N then Some (n + 4)%N
  else if (n =? 43)%N then Some 62%N
  else if (n =? 47)%N then Some 63%N
  else None.

Definition b64_byte (n : N) : byte :=
  default x00 (Byte.of_N (n mod 256)).

Fixpoint b64_decode (l : list ascii) : option (list byte) :=
  match l with
  | [] => Some []
  | [a; b; "="%char; "="%char] =>
      x ← b64_value a; y ← b64_value b;
      Some [b64_byte (x * 4 + y / 16)]
  | [a; b; c; "="%char] =>
      x ← b64_value a; y ← b64_value b; z ← b64_value c;
      Some [b64_byte (x * 4 + y / 16); b64_byte (y * 16 + z / 4)]
  | a :: b :: c :: d :: rest =>
      x ← b64_value a; y ← b64_value b; z ← b64_value c; w ← b64_value d;
      tl ← b64_decode rest;
      Some (b64_byte (x * 4 + y / 16) :: b64_byte (y * 16 + z / 4)
            :: b64_byte (z * 64 + w) :: tl)
  | _ => None
  end.

Definition stdEncoding : base64.StdEncoding := {|
  base64.DecodeString s :=
    match b64_decode (list_ascii_of_string s) with
    | Some bs => (bs, None)
    | None => ([], Some "illegal base64 data")
    end
|}.

(** Inputs used below: two address strings, and the base64 text of 32
    zero bytes. *)
Definition addrA : string :=
  "AAAAAAAAAAAAAAAAAAAAAAAAAAAAAAAAAAAAAAAAAAAAAAAAAAAAAAAAAA".

Definition addrB : string :=
  "BBBBBBBBBBBBBBBBBBBBBBBBBBBBBBBBBBBBBBBBBBBBBBBBBBBBBBBBBB".

Definition zeros32_b64 : string :=
  "AAAAAAAAAAAAAAAAAAAAAAAAAAAAAAAAAAAAAAAAAAA=".

(** A store with one array of three payments, two sent by the first
    address and one by the second, and the slice over it. *)
Definition payment (sender : string) (amount : Z) : @Transaction decls :=
  @mkTransaction decls PaymentTx
    (mkHeader (fst (@DecodeAddress codec sender)) 1000 1 2 []
       "testnet-v1.0" zeroDigest zeroDigest)
    zeroKeyregTxnFields
    (mkPaymentTxnFields zeroAddress amount zeroAddress)
    (@zeroAssetConfigTxnFields decls) tt tt tt.

Definition group : list (@Transaction decls) :=
  [payment addrA 1; payment addrB 2; payment addrA 3].

Definition store : gmap loc (list (@Transaction decls)) :=
  {[ 1%positive := group ]}.

Definition txns : slice := Slice 1%positive 0 3 3.

(** A growth policy: a reallocation leaves as many spare elements as
    the slice held. *)
Definition growslice (len : nat) : nat := len.

End sample.


(** ** The application builders: [args] and [argsBase64Encoded] *)

Definition indexOutOfRange : string := "index out of range".

(** Slices over any element type: the elements a slice denotes, what it
    takes to be well formed, and the indexed store [s[i] = x], which
    panics outside the length of the slice. *)
Section ElementSlices.
Context {A : Type}.

Definition slice_elems_of (m : gmap loc (list A)) (s : slice) : list A :=
  match s with
  | nilSlice => []
  | Slice a off len _ => take len (drop off (default [] (m !! a)))
  end.

Definition slice_valid_in (m : gmap loc (list A)) (s : slice) : Prop :=
  match s with
  | nilSlice => True
  | Slice a off len cap =>
      (len <= cap)%nat /\
      exists arr, m !! a = Some arr /\ (off + cap <= length arr)%nat
  end.

Definition slice_store (m : gmap loc (list A)) (s : slice) (i : nat) (x : A)
  : outcome (gmap loc (list A)) :=
  match s with
  | Slice a off len _ =>
      if bool_decide (i < len)%nat
      then Done (<[a := <[(off + i)%nat := x]> (default [] (m !! a))]> m)
      else Panic indexOutOfRange
  | nilSlice => Panic indexOutOfRange
  end.

End ElementSlices.

(** What the builders show of [ApplicationCallTxnFields], whose
    declaration is outside the translated files: a field
    [ApplicationArgs] that holds a slice of byte slices, read and
    assigned as a field is. *)
Class AppCallFields {D : Decls} := {
  ApplicationArgs : ApplicationCallTxnFields -> slice;
  set_ApplicationArgs :
    slice -> ApplicationCallTxnFields -> ApplicationCallTxnFields;
  ApplicationArgs_set_ApplicationArgs :
    forall (s : slice) (f : ApplicationCallTxnFields),
      ApplicationArgs (set_ApplicationArgs s f) = s
}.

Section ApplicationBuilders.
Context {D : Decls} {F : AppCallFields} {B : base64.StdEncoding}.

Local Abbreviation Builders := (gmap loc ApplicationBaseTransactionBuilder).
Local Abbreviation ArgArrays := (gmap loc (list (list byte))).

(** [abtb.ApplicationArgs], a field promoted through the two
    embeddings, read and assigned. *)
Definition builder_ApplicationArgs (b : ApplicationBaseTransactionBuilder)
  : slice :=
  ApplicationArgs
    (TransactionBuilder.ApplicationCallTxnFields_ (TransactionBuilder_ b)).

Definition builder_set_ApplicationArgs (s : slice)
  (b : ApplicationBaseTransactionBuilder)
  : ApplicationBaseTransactionBuilder :=
  let tb := TransactionBuilder_ b in
  mkApplicationBase
    (TransactionBuilder.mk (TransactionBuilder.Type_ tb)
       (TransactionBuilder.Header_ tb)
       (TransactionBuilder.KeyregTxnFields_ tb)
       (TransactionBuilder.PaymentTxnFields_ tb)
       (TransactionBuilder.AssetConfigTxnFields_ tb)
       (TransactionBuilder.AssetTransferTxnFields_ tb)
       (TransactionBuilder.AssetFreezeTxnFields_ tb)
       (set_ApplicationArgs s
          (TransactionBuilder.ApplicationCallTxnFields_ tb))).

(** [args] lists some transaction-specific arguments accessible from
    application logic: the builder keeps the slice it is given. *)
Definition args (abtb : ptr) (applicationArgs : slice) (hb : Builders)
  : outcome (ptr * Builders) :=
  match abtb with
  | Some l =>
      match hb !! l with
      | Some b =>
          Done (abtb, <[l := builder_set_ApplicationArgs applicationArgs b]> hb)
      | None => Panic nilDereference
      end
  | None => Panic nilDereference
  end.

(** The loop of [argsBase64Encoded] from index [i]: each string is
    decoded and stored at its index of the builder's slice; a string
    that does not decode ends the call with a nil result.  The strings
    are read from a slice of strings, which no store of this loop can
    reach, so they are given by value. *)
Fixpoint argsBase64Encoded_range (abtb : ptr) (hb : Builders) (i : nat)
  (applicationArgs : list string) (m : ArgArrays)
  : outcome (ptr * ArgArrays) :=
  match applicationArgs with
  | [] => Done (abtb, m)
  | arg :: rest =>
      let '(argB, err) := base64.DecodeString arg in
      if_err err return_ (Done (None, m));
      match abtb with
      | Some l =>
          match hb !! l with
          | Some b =>
              match slice_store m (builder_ApplicationArgs b) i argB with
              | Done m => argsBase64Encoded_range abtb hb (i + 1) rest m
              | Panic msg => Panic msg
              end
          | None => Panic nilDereference
          end
      | None => Panic nilDereference
      end
  end.

(** [argsBase64Encoded]: the arguments as a list of base64 encoded
    strings. *)
Definition argsBase64Encoded (abtb : ptr) (applicationArgs : list string)
  (hb : Builders) (m : ArgArrays) : outcome (ptr * ArgArrays) :=
  argsBase64Encoded_range abtb hb 0 applicationArgs m.

End ApplicationBuilders.

(** A concrete environment for the builders: the application-call
    fields are the argument slice alone. *)
Module sample_app.

Definition decls : Decls := {|
  AssetTransferTxnFields := unit;
  AssetFreezeTxnFields := unit;
  ApplicationCallTxnFields := slice;
  zeroAssetTransferTxnFields := tt;
  zeroAssetFreezeTxnFields := tt;
  zeroApplicationCallTxnFields := nilSlice;
  UnitNameLen := 8;
  AssetNameLen := 32
|}.

Definition fields : @AppCallFields decls := {|
  ApplicationArgs := fun f : @ApplicationCallTxnFields decls => f : slice;
  set_ApplicationArgs :=
    fun (s : slice) (_ : @ApplicationCallTxnFields decls) =>
      s : @ApplicationCallTxnFields decls;
  ApplicationArgs_set_ApplicationArgs := fun s f => eq_refl
|}.

(** A builder whose arguments are the slice [s], and the builder as
    [&ApplicationBaseTransactionBuilder{}] makes it, with no arguments. *)
Definition builderWith (s : slice) : @ApplicationBaseTransactionBuilder decls :=
  mkApplicationBase
    (@TransactionBuilder.mk decls NoTx zeroHeader zeroKeyregTxnFields
       zeroPaymentTxnFields (@zeroAssetConfigTxnFields decls) tt tt s).

Definition newBuilder : @ApplicationBaseTransactionBuilder decls :=
  builderWith nilSlice.

Definition buildersWith (s : slice)
  : gmap loc (@ApplicationBaseTransactionBuilder decls) :=
  {[ 1%positive := builderWith s ]}.

(** An array of three one-byte arguments and the slice over it. *)
Definition argArrays : gmap loc (list (list byte)) :=
  {[ 5%positive := [["001"%byte]; ["002"%byte]; ["003"%byte]] ]}.

Definition threeArgs : slice := Slice 5%positive 0 3 3.

End sample_app.

(** ** Vocabulary of the properties *)

Section Vocabulary.
Context {D : Decls} {C : AddressCodec} {Sg : crypto.Signer}
  {B : base64.StdEncoding}.

(** [flat] behaves as the flat-fee variant of [perByte] for the flat
    amount [fee]: the same error and the same use of entropy; on success
    the transaction of [perByte] with [Fee] replaced by the larger of
    [fee] and the floor; on error the zero transaction. *)
Definition flat_fee_variant (flat perByte : Rand (Transaction * option error))
  (fee : Z) : Prop :=
  forall rng : crypto.Entropy,
    snd (fst (flat rng)) = snd (fst (perByte rng))
    /\ snd (flat rng) = snd (perByte rng)
    /\ (snd (fst (perByte rng)) = None ->
          fst (fst (flat rng))
          = set_Fee (Z.max fee MinTxnFee) (fst (fst (perByte rng))))
    /\ (is_Some (snd (fst (perByte rng))) ->
          fst (fst (flat rng)) = zeroTransaction).

(** The per-byte constructors, as functions of the rate alone. *)
Inductive per_byte_constructor
  : (Z -> Rand (Transaction * option error)) -> Prop :=
| per_byte_payment from to amount firstRound lastRound note
    closeRemainderTo genesisID genesisHash :
    per_byte_constructor
      (fun fee =>
         MakePaymentTxn from to fee amount firstRound lastRound note
           closeRemainderTo genesisID genesisHash)
| per_byte_keyreg account firstRound lastRound note genesisID genesisHash
    voteKey selectionKey voteFirst voteLast voteKeyDilution :
    per_byte_constructor
      (fun feePerByte =>
         MakeKeyRegTxn account feePerByte firstRound lastRound note genesisID
           genesisHash voteKey selectionKey voteFirst voteLast
           voteKeyDilution)
| per_byte_asset_create account firstRound lastRound note genesisID
    genesisHash total defaultFrozen manager reserve freeze clawback unitName
    assetName :
    per_byte_constructor
      (fun feePerByte =>
         MakeAssetCreateTxn account feePerByte firstRound lastRound note
           genesisID genesisHash total defaultFrozen manager reserve freeze
           clawback unitName assetName).

(** [measured mk rate rng s tx]: the call [mk rate] on entropy [rng]
    returned [tx] without error, and the size estimated on the way was
    [s].  The transaction that is measured is the returned one with the
    rate still in its [Fee] field: the fee update is the only change
    made after the measurement. *)
Definition measured (mk : Z -> Rand (Transaction * option error))
  (rate : Z) (rng : crypto.Entropy) (s : Z) (tx : Transaction) : Prop :=
  fst (mk rate rng) = (tx, None)
  /\ fst (estimateSize (set_Fee rate tx) rng) = (s, None).

End Vocabulary.

#[global] Instance byte_eq_decision : EqDecision byte := Byte.byte_eq_dec.

Section GroupVocabulary.
Context {D : Decls}.

(** The transactions [AssignGroupID] is to return: all of them when no
    account is given, else those sent by the decoded account. *)
Definition selected (account : string) (decoded : Address)
  (tx : Transaction) : Prop :=
  account = "" \/ Sender (Header_ tx) = decoded.

#[global] Instance selected_decision account decoded tx :
  Decision (selected account decoded tx).
Proof. unfold selected. apply _. Defined.

(** [result] lives in arrays allocated after the store [m0] was taken:
    [m] still holds every array of [m0] unchanged, and [result] is well
    formed in [m] and points outside [m0]. *)
Definition allocated_since (m0 m : gmap loc (list Transaction))
  (result : slice) : Prop :=
  (forall l : loc, l ∈ dom m0 -> m !! l = m0 !! l)
  /\ slice_valid m result
  /\ match result with
     | nilSlice => True
     | Slice a _ _ _ => a ∉ dom m0
     end.

End GroupVocabulary.

(** ** Proof automation *)

Arguments estimateSize : simpl never.
Arguments byte32FromBase64 : simpl never.
Arguments copy : simpl never.
Arguments zeroBytes : simpl never.

(** Case analysis on the scrutinee of the outermost [match] of the goal:
    one step through a Go body with early returns. *)
Ltac step_match :=
  match goal with
  | |- context [match ?x with _ => _ end] =>
      lazymatch x with
      | context [match _ with _ => _ end] => fail
      | _ => destruct x eqn:?
      end
  end.

Ltac step_body := repeat (step_match; simpl in *; simplify_eq).


(** Arithmetic left by the comparison with the fee floor. *)
Ltac solve_clamp :=
  repeat match goal with
         | H : (_ <? _) = true |- _ => apply Z.ltb_lt in H
         | H : (_ <? _) = false |- _ => apply Z.ltb_ge in H
         end;
  unfold MinTxnFee in *; lia.

(** After a successful run, [Hsize] speaks of the transaction that was
    measured: rewrite it with the measurement found on the way. *)
Ltac use_measurement Hsize :=
  unfold set_Fee, set_Header, Header_set_Fee in *; cbn in *;
  match goal with
  | H : estimateSize _ _ = _ |- _ => rewrite H in Hsize
  end;
  cbn in Hsize; simplify_eq.

(** Turn the recorded outcomes of [bool_decide] into the propositions
    they decide. *)
Ltac reflect_decisions :=
  repeat match goal with
         | H : bool_decide _ = true |- _ => apply bool_decide_eq_true in H
         | H : bool_decide _ = false |- _ => apply bool_decide_eq_false in H
         end.
(** * Properties *)

(** ** Basic facts about the Go data *)

Lemma uint64_range (z : Z) : 0 <= uint64 z < 2 ^ 64.
Proof. unfold uint64. apply Z.mod_pos_bound. lia. Qed.

Lemma uint64_small (z : Z) : 0 <= z < 2 ^ 64 -> uint64 z = z.
Proof. intros Hz. unfold uint64. apply Z.mod_small. exact Hz. Qed.

Lemma length_zeroBytes (n : nat) : length (zeroBytes n) = n.
Proof. unfold zeroBytes. apply length_replicate. Qed.

Lemma length_copy (dst src : list byte) :
  length (copy dst src) = length dst.
Proof.
  unfold copy. rewrite length_app, length_take, length_drop. lia.
Qed.

Lemma copy_same_length (dst src : list byte) :
  length src = length dst -> copy dst src = src.
Proof.
  intros Hlen. unfold copy.
  rewrite Hlen, drop_all, app_nil_r, <- Hlen. apply firstn_all.
Qed.

Lemma copy_zeroBytes (n : nat) (src : list byte) :
  copy (zeroBytes n) src = take n src ++ zeroBytes (n - length src).
Proof.
  unfold copy, zeroBytes. rewrite length_replicate, drop_replicate. done.
Qed.

Lemma Byte_to_N_inj (x y : byte) : Byte.to_N x = Byte.to_N y -> x = y.
Proof.
  intros Hxy.
  assert (Some x = Some y) as Heq
    by (rewrite <- (Byte.of_to_N x), <- (Byte.of_to_N y), Hxy; done).
  congruence.
Qed.

Lemma bytes_Compare_refl (a : list byte) : bytes_Compare a a = 0.
Proof.
  induction a as [|x a IH]; simpl; [done|].
  rewrite N.compare_refl. exact IH.
Qed.

(** [bytes.Compare] answers 0 on equal byte strings only. *)
Lemma bytes_Compare_eq (a b : list byte) : bytes_Compare a b = 0 <-> a = b.
Proof.
  split; [|intros ->; apply bytes_Compare_refl].
  revert b. induction a as [|x a IH]; intros [|y b]; simpl; try done.
  destruct (N.compare_spec (Byte.to_N x) (Byte.to_N y)) as [Hxy| |];
    try done.
  intros Hab. f_equal; [apply Byte_to_N_inj, Hxy | apply IH, Hab].
Qed.

(** The fee floor, as the constructors write it after a fee assignment. *)
Lemma clamp_is_max (f : Z) :
  (if f <? MinTxnFee then MinTxnFee else f) = Z.max f MinTxnFee.
Proof. destruct (Z.ltb_spec f MinTxnFee); lia. Qed.

Section RecordFacts.
Context {D : Decls}.

Lemma Fee_set_Fee (v : Z) (tx : Transaction) :
  Fee (Header_ (set_Fee v tx)) = v.
Proof. done. Qed.

Lemma set_Fee_set_Fee (v w : Z) (tx : Transaction) :
  set_Fee v (set_Fee w tx) = set_Fee v tx.
Proof. done. Qed.

Lemma set_Fee_same (tx : Transaction) :
  set_Fee (Fee (Header_ tx)) tx = tx.
Proof. destruct tx as [ty [] ? ? ? ? ? ?]. done. Qed.

(** The clamp that follows every fee assignment but one. *)
Lemma clamp_set_Fee (v : Z) (tx : Transaction) :
  (if Fee (Header_ (set_Fee v tx)) <? MinTxnFee
   then set_Fee MinTxnFee (set_Fee v tx) else set_Fee v tx)
  = set_Fee (Z.max v MinTxnFee) tx.
Proof.
  rewrite Fee_set_Fee, set_Fee_set_Fee.
  destruct (Z.ltb_spec v MinTxnFee); f_equal; lia.
Qed.

End RecordFacts.
(** ** The fixed-width field codec: [byte32FromBase64] *)

Section Byte32.
Context {B : base64.StdEncoding}.

Lemma byte32FromBase64_malformed (in_ : string) (slice : list byte)
  (e : error) :
  base64.DecodeString in_ = (slice, Some e) ->
  byte32FromBase64 in_ = (zeroBytes 32, Some e).
Proof. intros Hdec. unfold byte32FromBase64. rewrite Hdec. done. Qed.

Lemma byte32FromBase64_wrong_length (in_ : string) (slice : list byte) :
  base64.DecodeString in_ = (slice, None) ->
  length slice <> 32%nat ->
  byte32FromBase64 in_ = (zeroBytes 32, Some "Input is not 32 bytes").
Proof.
  intros Hdec Hlen. unfold byte32FromBase64. rewrite Hdec.
  rewrite bool_decide_eq_true_2; done.
Qed.

Lemma byte32FromBase64_ok (in_ : string) (slice : list byte) :
  base64.DecodeString in_ = (slice, None) ->
  length slice = 32%nat ->
  byte32FromBase64 in_ = (slice, None).
Proof.
  intros Hdec Hlen. unfold byte32FromBase64. rewrite Hdec.
  rewrite bool_decide_eq_false_2 by (intros Hne; apply Hne, Hlen).
  rewrite copy_same_length; [done|]. rewrite length_zeroBytes. exact Hlen.
Qed.

(** C8.  For every input string, [byte32FromBase64] returns an error
    exactly when the base64 decoder reports a malformed payload or the
    decoded length is not 32; otherwise it returns the 32 decoded bytes.
    With an error the array handed back is the zero array: no partly
    filled array comes with success or with failure. *)
Theorem byte32FromBase64_spec (in_ : string) :
  let decoded := base64.DecodeString in_ in
  let out := byte32FromBase64 in_ in
  (is_Some (snd out) <->
     is_Some (snd decoded) \/ length (fst decoded) <> 32%nat)
  /\ (snd out = None ->
        fst out = fst decoded /\ length (fst out) = 32%nat)
  /\ (is_Some (snd out) -> fst out = zeroBytes 32).
Proof.
  cbv zeta.
  destruct (base64.DecodeString in_) as [slice [e|]] eqn:Hdec.
  - rewrite (byte32FromBase64_malformed _ _ _ Hdec). simpl.
    split; [|split]; [split; eauto | done | done].
  - destruct (decide (length slice = 32%nat)) as [Hlen|Hlen].
    + rewrite (byte32FromBase64_ok _ _ Hdec Hlen). simpl.
      split; [|split].
      * split; [intros [? ?]; done|].
        intros [[? ?]|?]; done.
      * done.
      * intros [? ?]; done.
    + rewrite (byte32FromBase64_wrong_length _ _ Hdec Hlen). simpl.
      split; [|split]; [split; eauto | done | done].
Qed.

End Byte32.

(** ** The constructors: errors, the fee floor, the flat-fee variants *)

Section ConstructorFacts.
Context {D : Decls} {C : AddressCodec} {Sg : crypto.Signer}
  {B : base64.StdEncoding}.

(** *** Error paths *)

Lemma MakePaymentTxn_error_zero from to fee amount firstRound lastRound note
  closeRemainderTo genesisID genesisHash rng :
  let r :=
    MakePaymentTxn from to fee amount firstRound lastRound note
      closeRemainderTo genesisID genesisHash rng in
  is_Some (snd (fst r)) -> fst (fst r) = zeroTransaction.
Proof.
  unfold MakePaymentTxn. step_body; done.
Qed.

Lemma MakeKeyRegTxn_error_zero account feePerByte firstRound lastRound note
  genesisID genesisHash voteKey selectionKey voteFirst voteLast
  voteKeyDilution rng :
  let r :=
    MakeKeyRegTxn account feePerByte firstRound lastRound note genesisID
      genesisHash voteKey selectionKey voteFirst voteLast voteKeyDilution
      rng in
  is_Some (snd (fst r)) -> fst (fst r) = zeroTransaction.
Proof.
  unfold MakeKeyRegTxn. step_body; done.
Qed.

(** The wrapper shared by the three flat-fee variants. *)
Lemma flat_fee_wrapper (perByte : Rand (Transaction * option error))
  (fee : Z) :
  flat_fee_variant
    (fun rng =>
       let '((tx, err), rng) := perByte rng in
       if_err err return_ ((zeroTransaction, err), rng);
       let tx := set_Fee fee tx in
       let tx :=
         if Fee (Header_ tx) <? MinTxnFee then set_Fee MinTxnFee tx else tx
       in
       ((tx, None), rng))
    perByte fee.
Proof.
  intros rng. destruct (perByte rng) as [[tx [e|]] rng']; cbn [fst snd].
  - repeat split; try done.
  - rewrite clamp_set_Fee. repeat split; try done.
Qed.

Lemma flat_fee_variant_errors flat perByte fee rng :
  flat_fee_variant flat perByte fee ->
  is_Some (snd (fst (flat rng))) -> fst (fst (flat rng)) = zeroTransaction.
Proof.
  intros Hv. destruct (Hv rng) as (Herr & _ & _ & Hzero).
  rewrite Herr. exact Hzero.
Qed.

Lemma flat_fee_variant_floor flat perByte fee rng :
  flat_fee_variant flat perByte fee ->
  snd (fst (flat rng)) = None ->
  MinTxnFee <= Fee (Header_ (fst (fst (flat rng)))).
Proof.
  intros Hv. destruct (Hv rng) as (Herr & _ & Hok & _).
  rewrite Herr. intros Hnone. rewrite (Hok Hnone), Fee_set_Fee. lia.
Qed.

(** C6.  For every transaction kind the flat-fee variant runs the
    per-byte constructor on the same arguments; it returns an error
    exactly when that one does (the same error), and on success the same
    transaction with [Fee] replaced by [max fee 1000]. *)
Theorem flat_fee_variants (from to account : string)
  (fee amount firstRound lastRound : Z) (note : list byte)
  (closeRemainderTo genesisID : string) (genesisHashBytes : list byte)
  (genesisHash voteKey selectionKey : string)
  (voteFirst voteLast voteKeyDilution total : Z) (defaultFrozen : bool)
  (manager reserve freeze clawback unitName assetName : string) :
  flat_fee_variant
    (MakePaymentTxnWithFlatFee from to fee amount firstRound lastRound note
       closeRemainderTo genesisID genesisHashBytes)
    (MakePaymentTxn from to fee amount firstRound lastRound note
       closeRemainderTo genesisID genesisHashBytes)
    fee
  /\ flat_fee_variant
       (MakeKeyRegTxnWithFlatFee account fee firstRound lastRound note
          genesisID genesisHash voteKey selectionKey voteFirst voteLast
          voteKeyDilution)
       (MakeKeyRegTxn account fee firstRound lastRound note genesisID
          genesisHash voteKey selectionKey voteFirst voteLast
          voteKeyDilution)
       fee
  /\ flat_fee_variant
       (MakeAssetCreateTxnWithFlatFee account fee firstRound lastRound note
          genesisID genesisHash total defaultFrozen manager reserve freeze
          clawback unitName assetName)
       (MakeAssetCreateTxn account fee firstRound lastRound note genesisID
          genesisHash total defaultFrozen manager reserve freeze clawback
          unitName assetName)
       fee.
Proof.
  split; [|split].
  - apply (flat_fee_wrapper
             (MakePaymentTxn from to fee amount firstRound lastRound note
                closeRemainderTo genesisID genesisHashBytes)).
  - apply (flat_fee_wrapper
             (MakeKeyRegTxn account fee firstRound lastRound note genesisID
                genesisHash voteKey selectionKey voteFirst voteLast
                voteKeyDilution)).
  - apply (flat_fee_wrapper
             (MakeAssetCreateTxn account fee firstRound lastRound note
                genesisID genesisHash total defaultFrozen manager reserve
                freeze clawback unitName assetName)).
Qed.

(** *** The fee floor *)

Lemma MakePaymentTxn_floor from to fee amount firstRound lastRound note
  closeRemainderTo genesisID genesisHash rng :
  let r :=
    MakePaymentTxn from to fee amount firstRound lastRound note
      closeRemainderTo genesisID genesisHash rng in
  snd (fst r) = None -> MinTxnFee <= Fee (Header_ (fst (fst r))).
Proof.
  unfold MakePaymentTxn. step_body; try done; intros _; solve_clamp.
Qed.

Lemma MakeKeyRegTxn_floor account feePerByte firstRound lastRound note
  genesisID genesisHash voteKey selectionKey voteFirst voteLast
  voteKeyDilution rng :
  let r :=
    MakeKeyRegTxn account feePerByte firstRound lastRound note genesisID
      genesisHash voteKey selectionKey voteFirst voteLast voteKeyDilution
      rng in
  snd (fst r) = None -> MinTxnFee <= Fee (Header_ (fst (fst r))).
Proof.
  unfold MakeKeyRegTxn. step_body; try done; intros _; solve_clamp.
Qed.

(** What [MakeAssetCreateTxn] leaves in [Fee]: the wrapped product, with
    no floor applied. *)
Lemma MakeAssetCreateTxn_fee account feePerByte firstRound lastRound note
  genesisID genesisHash total defaultFrozen manager reserve freeze clawback
  unitName assetName rng :
  let r :=
    MakeAssetCreateTxn account feePerByte firstRound lastRound note genesisID
      genesisHash total defaultFrozen manager reserve freeze clawback
      unitName assetName rng in
  snd (fst r) = None ->
  exists eSize : Z, Fee (Header_ (fst (fst r))) = uint64 (eSize * feePerByte).
Proof.
  unfold MakeAssetCreateTxn. step_body; try done; intros _; eauto.
Qed.

(** The five constructors that clamp: a returned transaction carries a
    fee of at least [MinTxnFee], whatever rate or flat amount came in. *)
Lemma fee_floor_of_clamping_constructors (from to account : string)
  (fee amount firstRound lastRound : Z) (note : list byte)
  (closeRemainderTo genesisID : string) (genesisHashBytes : list byte)
  (genesisHash voteKey selectionKey : string)
  (voteFirst voteLast voteKeyDilution total : Z) (defaultFrozen : bool)
  (manager reserve freeze clawback unitName assetName : string)
  (rng : crypto.Entropy) :
  let floored (r : (Transaction * option error) * crypto.Entropy) :=
    snd (fst r) = None -> MinTxnFee <= Fee (Header_ (fst (fst r))) in
  floored (MakePaymentTxn from to fee amount firstRound lastRound note
             closeRemainderTo genesisID genesisHashBytes rng)
  /\ floored (MakePaymentTxnWithFlatFee from to fee amount firstRound
                lastRound note closeRemainderTo genesisID genesisHashBytes
                rng)
  /\ floored (MakeKeyRegTxn account fee firstRound lastRound note genesisID
                genesisHash voteKey selectionKey voteFirst voteLast
                voteKeyDilution rng)
  /\ floored (MakeKeyRegTxnWithFlatFee account fee firstRound lastRound note
                genesisID genesisHash voteKey selectionKey voteFirst
                voteLast voteKeyDilution rng)
  /\ floored (MakeAssetCreateTxnWithFlatFee account fee firstRound lastRound
                note genesisID genesisHash total defaultFrozen manager
                reserve freeze clawback unitName assetName rng).
Proof.
  cbv zeta. repeat split.
  - apply MakePaymentTxn_floor.
  - eapply flat_fee_variant_floor,
      (flat_fee_wrapper
         (MakePaymentTxn from to fee amount firstRound lastRound note
            closeRemainderTo genesisID genesisHashBytes)).
  - apply MakeKeyRegTxn_floor.
  - eapply flat_fee_variant_floor,
      (flat_fee_wrapper
         (MakeKeyRegTxn account fee firstRound lastRound note genesisID
            genesisHash voteKey selectionKey voteFirst voteLast
            voteKeyDilution)).
  - eapply flat_fee_variant_floor,
      (flat_fee_wrapper
         (MakeAssetCreateTxn account fee firstRound lastRound note genesisID
            genesisHash total defaultFrozen manager reserve freeze clawback
            unitName assetName)).
Qed.

(** C1, on the code.  [MakeAssetCreateTxn] computes the fee and returns
    without the floor its siblings apply: called with the per-byte rate
    0, every transaction it returns has [Fee] 0, below [MinTxnFee]. *)
Theorem MakeAssetCreateTxn_zero_rate_below_floor (account : string)
  (firstRound lastRound : Z) (note : list byte)
  (genesisID genesisHash : string) (total : Z) (defaultFrozen : bool)
  (manager reserve freeze clawback unitName assetName : string)
  (rng : crypto.Entropy) :
  let r :=
    MakeAssetCreateTxn account 0 firstRound lastRound note genesisID
      genesisHash total defaultFrozen manager reserve freeze clawback
      unitName assetName rng in
  snd (fst r) = None ->
  Fee (Header_ (fst (fst r))) = 0 /\ Fee (Header_ (fst (fst r))) < MinTxnFee.
Proof.
  intros r Hok.
  destruct (MakeAssetCreateTxn_fee account 0 firstRound lastRound note
              genesisID genesisHash total defaultFrozen manager reserve
              freeze clawback unitName assetName rng Hok) as [eSize Hfee].
  fold r in Hfee. rewrite Hfee, Z.mul_0_r. unfold MinTxnFee. done.
Qed.

(** C3, on the code.  When the unit name is longer than the array that
    holds it, [MakeAssetCreateTxn] returns the error together with the
    record built so far, which carries the transaction type and the
    total: a partly built record, not the zero one. *)
Theorem MakeAssetCreateTxn_unit_name_error_partial (account : string)
  (feePerByte firstRound lastRound : Z) (note : list byte)
  (genesisID genesisHash : string) (total : Z) (defaultFrozen : bool)
  (unitName assetName : string) (rng : crypto.Entropy) :
  (UnitNameLen < String.length unitName)%nat ->
  let r :=
    MakeAssetCreateTxn account feePerByte firstRound lastRound note genesisID
      genesisHash total defaultFrozen "" "" "" "" unitName assetName rng in
  is_Some (snd (fst r))
  /\ Type_ (fst (fst r)) = AssetConfigTx
  /\ Total (AssetParams_of (fst (fst r))) = total
  /\ fst (fst r) <> zeroTransaction.
Proof.
  intros Hlong. unfold MakeAssetCreateTxn. simpl.
  assert (bool_decide
            (length (zeroBytes UnitNameLen) < String.length unitName)%nat
          = true) as Hdec
    by (apply bool_decide_eq_true; rewrite length_zeroBytes; exact Hlong).
  rewrite Hdec. simpl.
  repeat split; [eauto | discriminate].
Qed.

(** How [MakePaymentTxn] treats the genesis hash: it fails when the
    hash is absent or empty; a transaction is returned only for a
    non-empty hash, and its [GenesisHash] is then the first 32 bytes of
    the input, padded with zero bytes when the input is shorter. *)
Lemma MakePaymentTxn_genesisHash (from to : string)
  (fee amount firstRound lastRound : Z) (note : list byte)
  (closeRemainderTo genesisID : string) (genesisHash : list byte)
  (rng : crypto.Entropy) :
  let r :=
    MakePaymentTxn from to fee amount firstRound lastRound note
      closeRemainderTo genesisID genesisHash rng in
  (length genesisHash = 0%nat -> is_Some (snd (fst r)))
  /\ (snd (fst r) = None ->
        length genesisHash <> 0%nat
        /\ GenesisHash (Header_ (fst (fst r)))
           = take 32 genesisHash ++ zeroBytes (32 - length genesisHash)).
Proof.
  unfold MakePaymentTxn. split.
  - intros Hlen. rewrite (bool_decide_eq_true_2 _ Hlen).
    step_body; eauto.
  - step_body; try done; intros _.
    all: split; [|unfold zeroDigest; apply copy_zeroBytes].
    all: match goal with
         | H : bool_decide (length _ = 0%nat) = false |- _ =>
             by apply bool_decide_eq_false in H
         end.
Qed.

Lemma copy_zeroDigest_nonempty (genesisHash : list byte) :
  length genesisHash <> 0%nat ->
  length (copy zeroDigest genesisHash) <> 0%nat
  /\ copy zeroDigest (copy zeroDigest genesisHash)
     = copy zeroDigest genesisHash.
Proof.
  intros _. rewrite length_copy. unfold zeroDigest.
  rewrite length_zeroBytes. split; [lia|].
  apply copy_same_length. rewrite length_copy. done.
Qed.

(** C4, on the code.  [MakePaymentTxn] checks the genesis hash for
    emptiness only: a non-empty hash of any length is treated as its
    first 32 bytes, padded with zero bytes when shorter, and the call
    has the very outcome it has on that 32-byte hash.  No error is
    raised for a length other than 32. *)
Theorem MakePaymentTxn_wrong_length_genesisHash (from to : string)
  (fee amount firstRound lastRound : Z) (note : list byte)
  (closeRemainderTo genesisID : string) (genesisHash : list byte)
  (rng : crypto.Entropy) :
  length genesisHash <> 0%nat ->
  MakePaymentTxn from to fee amount firstRound lastRound note
    closeRemainderTo genesisID genesisHash rng
  = MakePaymentTxn from to fee amount firstRound lastRound note
      closeRemainderTo genesisID
      (take 32 genesisHash ++ zeroBytes (32 - length genesisHash)) rng.
Proof.
  intros Hlen.
  destruct (copy_zeroDigest_nonempty genesisHash Hlen) as [Hlen' Hidem].
  rewrite <- copy_zeroBytes. fold zeroDigest.
  unfold MakePaymentTxn.
  rewrite (bool_decide_eq_false_2 _ Hlen), (bool_decide_eq_false_2 _ Hlen').
  rewrite Hidem. reflexivity.
Qed.

End ConstructorFacts.

Lemma MakeAssetCreateTxn_zero_rate_below_floor_witness :
  let r :=
    @MakeAssetCreateTxn sample.decls sample.codec sample.signer
      sample.stdEncoding sample.addrA 0 1000 2000 [] "testnet-v1.0"
      sample.zeros32_b64 5 false "" "" "" "" "" "" 0%nat in
  snd (fst r) = None
  /\ Fee (Header_ (fst (fst r))) = 0
  /\ Fee (Header_ (fst (fst r))) < MinTxnFee.
Proof.
  split; [vm_compute; reflexivity|].
  apply (@MakeAssetCreateTxn_zero_rate_below_floor sample.decls sample.codec
           sample.signer sample.stdEncoding).
  vm_compute. reflexivity.
Defined.

Lemma MakeAssetCreateTxn_unit_name_error_partial_witness :
  let r :=
    @MakeAssetCreateTxn sample.decls sample.codec sample.signer
      sample.stdEncoding sample.addrA 10 1000 2000 [] "testnet-v1.0"
      sample.zeros32_b64 5 false "" "" "" "" "123456789" "" 0%nat in
  is_Some (snd (fst r))
  /\ Type_ (fst (fst r)) = AssetConfigTx
  /\ Total (AssetParams_of (fst (fst r))) = 5
  /\ fst (fst r) <> zeroTransaction.
Proof.
  apply (@MakeAssetCreateTxn_unit_name_error_partial sample.decls
           sample.codec sample.signer sample.stdEncoding).
  vm_compute. lia.
Defined.

Lemma MakePaymentTxn_wrong_length_genesisHash_witness :
  let mk := fun genesisHash =>
    @MakePaymentTxn sample.decls sample.codec sample.signer sample.addrA
      sample.addrB 10 5000000 1000 2000 [] "" "testnet-v1.0" genesisHash
      0%nat in
  snd (fst (mk ["001"%byte])) = None
  /\ mk ["001"%byte] = mk ("001"%byte :: zeroBytes 31).
Proof.
  split; [vm_compute; reflexivity|].
  apply (@MakePaymentTxn_wrong_length_genesisHash sample.decls sample.codec
           sample.signer).
  simpl. lia.
Defined.

(** A genesis hash of one byte is accepted: the length is not a
    condition of success. *)
Lemma MakePaymentTxn_accepts_short_genesisHash :
  ~ (forall (D : Decls) (C : AddressCodec) (Sg : crypto.Signer)
       (from to : string) (fee amount firstRound lastRound : Z)
       (note : list byte) (closeRemainderTo genesisID : string)
       (genesisHash : list byte) (rng : crypto.Entropy),
       snd (fst (MakePaymentTxn from to fee amount firstRound lastRound
                   note closeRemainderTo genesisID genesisHash rng)) = None ->
       length genesisHash = 32%nat).
Proof.
  intros Hclaim.
  specialize (Hclaim sample.decls sample.codec sample.signer sample.addrA
                sample.addrB 10 5000000 1000 2000 [] "" "testnet-v1.0"
                ["001"%byte] 0%nat).
  assert (length ["001"%byte] = 32%nat) as Habs
    by (apply Hclaim; vm_compute; reflexivity).
  discriminate Habs.
Qed.

(** ** Optional addresses *)

Section OptionalAddresses.
Context {D : Decls} {C : AddressCodec} {Sg : crypto.Signer}
  {B : base64.StdEncoding}.

(** With an empty [closeRemainderTo] the decoder is consulted for [from]
    and [to] only. *)
Lemma MakePaymentTxn_decoder_independent (C' : AddressCodec)
  from to fee amount firstRound lastRound note genesisID genesisHash rng :
  @DecodeAddress C' from = @DecodeAddress C from ->
  @DecodeAddress C' to = @DecodeAddress C to ->
  @MakePaymentTxn D C' Sg from to fee amount firstRound lastRound note ""
    genesisID genesisHash rng
  = @MakePaymentTxn D C Sg from to fee amount firstRound lastRound note ""
      genesisID genesisHash rng.
Proof.
  intros Hfrom Hto. unfold MakePaymentTxn. rewrite Hfrom, Hto. reflexivity.
Qed.

Lemma MakePaymentTxn_empty_close_errors from to fee amount firstRound
  lastRound note genesisID genesisHash rng :
  let r :=
    MakePaymentTxn from to fee amount firstRound lastRound note ""
      genesisID genesisHash rng in
  snd (DecodeAddress from) = None ->
  snd (DecodeAddress to) = None ->
  length genesisHash <> 0%nat ->
  snd (fst r) = None
  \/ exists txn : Transaction,
       snd (fst r) = snd (fst (estimateSize txn rng))
       /\ CloseRemainderTo (PaymentTxnFields_ txn) = zeroAddress.
Proof.
  unfold MakePaymentTxn. intros Hfrom Hto Hlen.
  rewrite (bool_decide_eq_false_2 _ Hlen).
  step_body; try done; try (left; reflexivity).
  right. eexists.
  match goal with H : estimateSize _ _ = _ |- _ => rewrite H end.
  simpl. done.
Qed.

(** The decoder is consulted for [account] and for the optional
    addresses that are not empty. *)
Lemma MakeAssetCreateTxn_decoder_independent (C' : AddressCodec)
  account feePerByte firstRound lastRound note genesisID genesisHash total
  defaultFrozen manager reserve freeze clawback unitName assetName rng :
  (forall s : string,
     s <> "" -> @DecodeAddress C' s = @DecodeAddress C s) ->
  @DecodeAddress C' account = @DecodeAddress C account ->
  @MakeAssetCreateTxn D C' Sg B account feePerByte firstRound lastRound note
    genesisID genesisHash total defaultFrozen manager reserve freeze
    clawback unitName assetName rng
  = @MakeAssetCreateTxn D C Sg B account feePerByte firstRound lastRound
      note genesisID genesisHash total defaultFrozen manager reserve freeze
      clawback unitName assetName rng.
Proof.
  intros Hne Hacc. unfold MakeAssetCreateTxn. rewrite Hacc.
  repeat match goal with
         | |- context [bool_decide (?s <> "")] =>
             let Hs := fresh "Hs" in
             destruct (bool_decide_reflect (s <> "")) as [Hs|Hs];
             [rewrite (Hne s Hs)|]
         end.
  all: reflexivity.
Qed.

(** Once the optional addresses are empty or decode, the names fit,
    and the account and the genesis hash decode, the only error
    [MakeAssetCreateTxn] can still return is the one of the size
    estimate, made on a transaction whose optional fields are zero where
    the argument was empty. *)
Lemma MakeAssetCreateTxn_optional_errors account feePerByte firstRound
  lastRound note genesisID genesisHash total defaultFrozen manager reserve
  freeze clawback unitName assetName rng :
  let r :=
    MakeAssetCreateTxn account feePerByte firstRound lastRound note genesisID
      genesisHash total defaultFrozen manager reserve freeze clawback
      unitName assetName rng in
  (manager = "" \/ snd (DecodeAddress manager) = None) ->
  (reserve = "" \/ snd (DecodeAddress reserve) = None) ->
  (freeze = "" \/ snd (DecodeAddress freeze) = None) ->
  (clawback = "" \/ snd (DecodeAddress clawback) = None) ->
  (String.length unitName <= UnitNameLen)%nat ->
  (String.length assetName <= AssetNameLen)%nat ->
  snd (DecodeAddress account) = None ->
  snd (byte32FromBase64 genesisHash) = None ->
  snd (fst r) = None
  \/ exists txn : Transaction,
       snd (fst r) = snd (fst (estimateSize txn rng))
       /\ (manager = "" -> Manager (AssetParams_of txn) = zeroAddress)
       /\ (reserve = "" -> Reserve (AssetParams_of txn) = zeroAddress)
       /\ (freeze = "" -> Freeze (AssetParams_of txn) = zeroAddress)
       /\ (clawback = "" -> Clawback (AssetParams_of txn) = zeroAddress).
Proof.
  intros r Hm Hr Hf Hc Hunit Hasset Hacc Hgh. subst r.
  unfold MakeAssetCreateTxn.
  step_body; reflect_decisions; rewrite ?length_zeroBytes in *.
  all: try lia.
  all: try (left; reflexivity).
  all: try (right; eexists;
            match goal with
            | H : estimateSize _ _ = _ |- _ => rewrite H
            end;
            simpl; repeat split; done).
  all: repeat match goal with
       | H : _ = "" \/ _ |- _ => destruct H as [H|H]; try done
       end.
Qed.

(** C7.  With [closeRemainderTo] empty, [MakePaymentTxn] hands back a
    transaction whose [CloseRemainderTo] is the zero address, its result
    depends on the address decoder through [from] and [to] only (so the
    empty string is never decoded), and once those two decode and the
    genesis hash is present the only error left is the size estimate's.
    Likewise each of manager, reserve, freeze and clawback of
    [MakeAssetCreateTxn]: an empty one leaves its field at the zero
    address, the result depends on the decoder through [account] and the
    non-empty strings only, and once the non-empty ones decode, the
    names fit and the account and the genesis hash decode, the only
    error left is the size estimate's, made on a transaction whose
    fields for the empty arguments are zero. *)
Theorem empty_optional_addresses :
  (forall (from to : string) (fee amount firstRound lastRound : Z)
     (note : list byte) (genesisID : string) (genesisHash : list byte)
     (rng : crypto.Entropy),
     let r :=
       MakePaymentTxn from to fee amount firstRound lastRound note ""
         genesisID genesisHash rng in
     CloseRemainderTo (PaymentTxnFields_ (fst (fst r))) = zeroAddress
     /\ (forall C' : AddressCodec,
           @DecodeAddress C' from = @DecodeAddress C from ->
           @DecodeAddress C' to = @DecodeAddress C to ->
           @MakePaymentTxn D C' Sg from to fee amount firstRound lastRound
             note "" genesisID genesisHash rng = r)
     /\ (snd (DecodeAddress from) = None ->
         snd (DecodeAddress to) = None ->
         length genesisHash <> 0%nat ->
         snd (fst r) = None
         \/ exists txn : Transaction,
              snd (fst r) = snd (fst (estimateSize txn rng))
              /\ CloseRemainderTo (PaymentTxnFields_ txn) = zeroAddress))
  /\
  (forall (account : string) (feePerByte firstRound lastRound : Z)
     (note : list byte) (genesisID genesisHash : string) (total : Z)
     (defaultFrozen : bool)
     (manager reserve freeze clawback unitName assetName : string)
     (rng : crypto.Entropy),
     let r :=
       MakeAssetCreateTxn account feePerByte firstRound lastRound note
         genesisID genesisHash total defaultFrozen manager reserve freeze
         clawback unitName assetName rng in
     (manager = "" -> Manager (AssetParams_of (fst (fst r))) = zeroAddress)
     /\ (reserve = "" -> Reserve (AssetParams_of (fst (fst r))) = zeroAddress)
     /\ (freeze = "" -> Freeze (AssetParams_of (fst (fst r))) = zeroAddress)
     /\ (clawback = "" ->
           Clawback (AssetParams_of (fst (fst r))) = zeroAddress)
     /\ (forall C' : AddressCodec,
           (forall s : string,
              s <> "" -> @DecodeAddress C' s = @DecodeAddress C s) ->
           @DecodeAddress C' account = @DecodeAddress C account ->
           @MakeAssetCreateTxn D C' Sg B account feePerByte firstRound
             lastRound note genesisID genesisHash total defaultFrozen
             manager reserve freeze clawback unitName assetName rng = r)
     /\ ((manager = "" \/ snd (@DecodeAddress C manager) = None) ->
         (reserve = "" \/ snd (@DecodeAddress C reserve) = None) ->
         (freeze = "" \/ snd (@DecodeAddress C freeze) = None) ->
         (clawback = "" \/ snd (@DecodeAddress C clawback) = None) ->
         (String.length unitName <= UnitNameLen)%nat ->
         (String.length assetName <= AssetNameLen)%nat ->
         snd (@DecodeAddress C account) = None ->
         snd (byte32FromBase64 genesisHash) = None ->
         snd (fst r) = None
         \/ exists txn : Transaction,
              snd (fst r) = snd (fst (estimateSize txn rng))
              /\ (manager = "" ->
                  Manager (AssetParams_of txn) = zeroAddress)
              /\ (reserve = "" ->
                  Reserve (AssetParams_of txn) = zeroAddress)
              /\ (freeze = "" -> Freeze (AssetParams_of txn) = zeroAddress)
              /\ (clawback = "" ->
                  Clawback (AssetParams_of txn) = zeroAddress))).
Proof.
  split.
  - intros. subst r. split; [|split].
    + unfold MakePaymentTxn. step_body; done.
    + intros C' Hfrom Hto. by apply MakePaymentTxn_decoder_independent.
    + apply MakePaymentTxn_empty_close_errors.
  - intros. subst r. repeat split.
    + intros ->. unfold MakeAssetCreateTxn. step_body; done.
    + intros ->. unfold MakeAssetCreateTxn. step_body; done.
    + intros ->. unfold MakeAssetCreateTxn. step_body; done.
    + intros ->. unfold MakeAssetCreateTxn. step_body; done.
    + intros C' Hne Hacc. by apply MakeAssetCreateTxn_decoder_independent.
    + apply MakeAssetCreateTxn_optional_errors.
Qed.

End OptionalAddresses.

Lemma empty_optional_addresses_witness :
  let r :=
    @MakeAssetCreateTxn sample.decls sample.codec sample.signer
      sample.stdEncoding sample.addrA 10 1000 2000 [] "testnet-v1.0"
      sample.zeros32_b64 5 false "" sample.addrB "" "" "UNIT" "an asset"
      0%nat in
  snd (fst r) = None
  /\ Manager (AssetParams_of (fst (fst r))) = zeroAddress
  /\ (snd (fst r) = None
      \/ exists txn : @Transaction sample.decls,
           snd (fst r)
           = snd (fst (@estimateSize sample.decls sample.signer txn 0%nat))
           /\ ("" = "" -> Manager (AssetParams_of txn) = zeroAddress)
           /\ (sample.addrB = "" -> Reserve (AssetParams_of txn) = zeroAddress)
           /\ ("" = "" -> Freeze (AssetParams_of txn) = zeroAddress)
           /\ ("" = "" -> Clawback (AssetParams_of txn) = zeroAddress)).
Proof.
  intros r.
  pose proof (proj2 (@empty_optional_addresses sample.decls sample.codec
                       sample.signer sample.stdEncoding)
                sample.addrA 10 1000 2000 [] "testnet-v1.0"
                sample.zeros32_b64 5 false "" sample.addrB "" "" "UNIT"
                "an asset" 0%nat)
    as (Hmanager & _ & _ & _ & _ & Hnofail).
  split; [vm_compute; reflexivity|].
  split; [exact (Hmanager eq_refl)|].
  apply Hnofail.
  - left; reflexivity.
  - right; vm_compute; reflexivity.
  - left; reflexivity.
  - left; reflexivity.
  - vm_compute; lia.
  - vm_compute; lia.
  - vm_compute; reflexivity.
  - vm_compute; reflexivity.
Defined.

(** ** The computed fee as a function of the rate *)

Section FeeOfRate.
Context {D : Decls} {C : AddressCodec} {Sg : crypto.Signer}
  {B : base64.StdEncoding}.

Lemma estimateSize_range (txn : Transaction) (rng : crypto.Entropy) (s : Z) :
  fst (estimateSize txn rng) = (s, None) -> 0 <= s < 2 ^ 64.
Proof.
  unfold estimateSize. step_body; try done.
  intros [= <-]. apply uint64_range.
Qed.

(** What each per-byte constructor leaves in [Fee], in terms of the
    size that was estimated: the wrapped product, raised to the floor
    where the constructor clamps. *)
Lemma MakePaymentTxn_measured from to amount firstRound lastRound note
  closeRemainderTo genesisID genesisHash rate rng s tx :
  measured
    (fun fee =>
       MakePaymentTxn from to fee amount firstRound lastRound note
         closeRemainderTo genesisID genesisHash) rate rng s tx ->
  Fee (Header_ tx) = Z.max (uint64 (s * rate)) MinTxnFee.
Proof.
  intros [Hret Hsize]. revert Hret Hsize. unfold MakePaymentTxn.
  step_body; try done; intros [= <-] Hsize.
  all: use_measurement Hsize; solve_clamp.
Qed.

Lemma MakeKeyRegTxn_measured account firstRound lastRound note genesisID
  genesisHash voteKey selectionKey voteFirst voteLast voteKeyDilution
  rate rng s tx :
  measured
    (fun feePerByte =>
       MakeKeyRegTxn account feePerByte firstRound lastRound note genesisID
         genesisHash voteKey selectionKey voteFirst voteLast
         voteKeyDilution) rate rng s tx ->
  Fee (Header_ tx) = Z.max (uint64 (s * rate)) MinTxnFee.
Proof.
  intros [Hret Hsize]. revert Hret Hsize. unfold MakeKeyRegTxn.
  step_body; try done; intros [= <-] Hsize.
  all: use_measurement Hsize; solve_clamp.
Qed.

Lemma MakeAssetCreateTxn_measured account firstRound lastRound note
  genesisID genesisHash total defaultFrozen manager reserve freeze clawback
  unitName assetName rate rng s tx :
  measured
    (fun feePerByte =>
       MakeAssetCreateTxn account feePerByte firstRound lastRound note
         genesisID genesisHash total defaultFrozen manager reserve freeze
         clawback unitName assetName) rate rng s tx ->
  Fee (Header_ tx) = uint64 (s * rate).
Proof.
  intros [Hret Hsize]. revert Hret Hsize. unfold MakeAssetCreateTxn.
  step_body; try done; intros [= <-] Hsize.
  all: use_measurement Hsize; reflexivity.
Qed.

(** C5, as the code has it.  For a per-byte constructor and a fixed
    estimated size [s], raising the rate from [rate1] to [rate2] does not
    lower the fee of the returned transaction, provided the product
    [s * rate2] stays within 64 bits. *)
Theorem fee_monotone_without_overflow
  (mk : Z -> Rand (Transaction * option error)) (rate1 rate2 : Z)
  (rng1 rng2 : crypto.Entropy) (s : Z) (tx1 tx2 : Transaction) :
  per_byte_constructor mk ->
  measured mk rate1 rng1 s tx1 ->
  measured mk rate2 rng2 s tx2 ->
  0 <= rate1 <= rate2 ->
  s * rate2 < 2 ^ 64 ->
  Fee (Header_ tx1) <= Fee (Header_ tx2).
Proof.
  intros Hmk Hm1 Hm2 Hrate Hfit.
  assert (0 <= s < 2 ^ 64) as Hs
    by (destruct Hm1 as [_ Hsize]; eapply estimateSize_range, Hsize).
  assert (0 <= s * rate1 <= s * rate2) as Hprod by nia.
  assert (uint64 (s * rate1) = s * rate1) as E1
    by (apply uint64_small; lia).
  assert (uint64 (s * rate2) = s * rate2) as E2
    by (apply uint64_small; lia).
  destruct Hmk.
  - rewrite (MakePaymentTxn_measured _ _ _ _ _ _ _ _ _ _ _ _ _ Hm1),
            (MakePaymentTxn_measured _ _ _ _ _ _ _ _ _ _ _ _ _ Hm2).
    lia.
  - rewrite (MakeKeyRegTxn_measured _ _ _ _ _ _ _ _ _ _ _ _ _ _ _ Hm1),
            (MakeKeyRegTxn_measured _ _ _ _ _ _ _ _ _ _ _ _ _ _ _ Hm2).
    lia.
  - rewrite
      (MakeAssetCreateTxn_measured _ _ _ _ _ _ _ _ _ _ _ _ _ _ _ _ _ _ Hm1),
      (MakeAssetCreateTxn_measured _ _ _ _ _ _ _ _ _ _ _ _ _ _ _ _ _ _ Hm2).
    lia.
Qed.

End FeeOfRate.

Lemma fee_monotone_without_overflow_witness :
  let mk := fun fee =>
    @MakePaymentTxn sample.decls sample.codec sample.signer sample.addrA
      sample.addrB fee 5000000 1000 2000 [] "" "testnet-v1.0"
      (zeroBytes 32) in
  Fee (Header_ (fst (fst (mk 10 0%nat))))
  <= Fee (Header_ (fst (fst (mk 20 0%nat)))).
Proof.
  intros mk.
  apply (@fee_monotone_without_overflow sample.decls sample.codec
           sample.signer sample.stdEncoding mk 10 20 0%nat 0%nat 128).
  - apply (@per_byte_payment sample.decls sample.codec sample.signer
             sample.stdEncoding).
  - split; vm_compute; reflexivity.
  - split; vm_compute; reflexivity.
  - lia.
  - lia.
Defined.

(** Monotonicity is lost once the product wraps: with an estimated size
    of 128 bytes, the rate [2^57 - 1] gives the fee [2^64 - 128], and the
    next rate, [2^57], wraps the product to 0 and gives the floor, 1000. *)
Lemma fee_monotone_fails_on_overflow :
  ~ (forall (D : Decls) (C : AddressCodec) (Sg : crypto.Signer)
       (B : base64.StdEncoding)
       (mk : Z -> Rand (Transaction * option error)) (rate1 rate2 : Z)
       (rng1 rng2 : crypto.Entropy) (s : Z) (tx1 tx2 : Transaction),
       per_byte_constructor mk ->
       measured mk rate1 rng1 s tx1 ->
       measured mk rate2 rng2 s tx2 ->
       0 <= rate1 <= rate2 ->
       rate2 < 2 ^ 64 ->
       Fee (Header_ tx1) <= Fee (Header_ tx2)).
Proof.
  intros Hclaim.
  pose (mk := fun fee =>
          @MakePaymentTxn sample.decls sample.codec sample.signer
            sample.addrA sample.addrB fee 5000000 1000 2000 [] ""
            "testnet-v1.0" (zeroBytes 32)).
  assert (Fee (Header_ (fst (fst (mk (2 ^ 57 - 1) 0%nat))))
          <= Fee (Header_ (fst (fst (mk (2 ^ 57) 0%nat))))) as Hle.
  { apply (Hclaim sample.decls sample.codec sample.signer
             sample.stdEncoding mk (2 ^ 57 - 1) (2 ^ 57) 0%nat 0%nat 128).
    - apply (@per_byte_payment sample.decls sample.codec sample.signer
               sample.stdEncoding).
    - split; vm_compute; reflexivity.
    - split; vm_compute; reflexivity.
    - lia.
    - lia. }
  vm_compute in Hle. apply Hle. reflexivity.
Qed.

(** ** The group binder: [AssignGroupID] *)

Section GroupFacts.
Context {D : Decls} {C : AddressCodec} {Sg : crypto.Signer}.
Variable growslice : nat -> nat.

Local Abbreviation Store := (gmap loc (list Transaction)).

Lemma length_slice_elems (m : Store) (s : slice) :
  slice_valid m s -> length (slice_elems m s) = slice_len s.
Proof.
  destruct s as [|a off len cap]; simpl; [done|].
  intros (Hle & arr & Harr & Hlen). rewrite Harr. simpl.
  rewrite length_take, length_drop. lia.
Qed.

(** Indexing reads the element the slice denotes. *)
Lemma slice_elems_lookup (m : Store) (s : slice) (i : nat) :
  slice_valid m s -> (i < slice_len s)%nat ->
  slice_elems m s !! i = Some (slice_index m s i).
Proof.
  destruct s as [|a off len cap]; simpl; [lia|].
  intros (Hle & arr & Harr & Hlen) Hi. rewrite Harr. simpl.
  rewrite lookup_take_lt, lookup_drop by lia.
  destruct (lookup_lt_is_Some_2 arr (off + i)) as [x Hx]; [lia|].
  rewrite Hx. done.
Qed.

(** A store that kept the arrays of [m0] denotes the same elements for
    every slice that was well formed in [m0]. *)
Lemma slice_elems_frame (m0 m : Store) (s : slice) :
  (forall l : loc, l ∈ dom m0 -> m !! l = m0 !! l) ->
  slice_valid m0 s ->
  slice_elems m s = slice_elems m0 s
  /\ forall i : nat, slice_index m s i = slice_index m0 s i.
Proof.
  intros Hframe Hvalid. destruct s as [|a off len cap]; simpl; [done|].
  destruct Hvalid as (_ & arr & Harr & _).
  rewrite (Hframe a) by (eapply elem_of_dom_2, Harr). done.
Qed.

Lemma allocated_since_refl (m0 : Store) : allocated_since m0 m0 nilSlice.
Proof. unfold allocated_since. simpl. done. Qed.

Lemma allocated_since_dom (m0 m : Store) (result : slice) (l : loc) :
  allocated_since m0 m result -> l ∈ dom m0 -> l ∈ dom m.
Proof.
  intros (Hframe & _ & _) Hl. apply elem_of_dom. rewrite (Hframe l Hl).
  apply elem_of_dom, Hl.
Qed.

(** [append] on a result that lives in new arrays: the arrays of [m0]
    stay as they were, and the result gains the element at its end. *)
Lemma append_allocated_since (m0 m : Store) (result : slice)
  (tx : Transaction) :
  allocated_since m0 m result ->
  allocated_since m0 (snd (append growslice result tx m))
    (fst (append growslice result tx m))
  /\ slice_elems (snd (append growslice result tx m))
       (fst (append growslice result tx m))
     = slice_elems m result ++ [tx].
Proof.
  intros Hinv.
  assert (fresh (dom m) ∉ dom m0) as Hfresh0.
  { intros Hin. apply (is_fresh (dom m)).
    eapply allocated_since_dom; [exact Hinv|exact Hin]. }
  destruct Hinv as (Hframe & Hvalid & Hout).
  destruct result as [|a off len cap]; simpl.
  - (* nil: a new array *)
    split; [split; [|split]|].
    + intros l Hl. rewrite lookup_insert_ne; [by apply Hframe|].
      intros <-. by apply Hfresh0.
    + split; [lia|]. eexists. rewrite lookup_insert_eq. split; [done|].
      simpl. rewrite length_replicate. lia.
    + exact Hfresh0.
    + rewrite lookup_insert_eq. done.
  - destruct Hvalid as (Hle & arr & Harr & Hlen).
    destruct (bool_decide_reflect (len < cap)%nat) as [Hroom|Hfull]; simpl.
    + (* room left: written in place *)
      rewrite Harr. simpl.
      split; [split; [|split]|].
      * intros l Hl. rewrite lookup_insert_ne; [by apply Hframe|].
        intros <-. by apply Hout.
      * split; [lia|]. eexists. rewrite lookup_insert_eq. split; [done|].
        rewrite length_insert. lia.
      * exact Hout.
      * rewrite lookup_insert_eq. simpl.
        rewrite drop_insert_ge by lia.
        replace (off + len - off)%nat with len by lia.
        replace (len + 1)%nat with (Datatypes.S len) by lia.
        rewrite (take_S_r _ _ tx).
        -- rewrite take_insert_ge by lia. done.
        -- apply list_lookup_insert_eq. rewrite length_drop. lia.
    + (* full: the elements move to a new array *)
      rewrite Harr. simpl.
      split; [split; [|split]|].
      * intros l Hl. rewrite lookup_insert_ne; [by apply Hframe|].
        intros <-. by apply Hfresh0.
      * split; [lia|]. eexists. rewrite lookup_insert_eq. split; [done|].
        rewrite !length_app, length_take, length_drop. simpl.
        rewrite length_replicate. lia.
      * exact Hfresh0.
      * rewrite lookup_insert_eq. simpl.
        rewrite cons_middle, app_assoc. apply take_app_length'.
        rewrite length_app, length_take, length_drop. simpl. lia.
Qed.

(** The test of the loop is the selection of the specification. *)
Lemma selected_test (account : string) (decoded : Address)
  (tx : Transaction) :
  bool_decide (account = "")
  || bool_decide (bytes_Compare (Sender (Header_ tx)) decoded = 0)
  = bool_decide (selected account decoded tx).
Proof.
  unfold selected.
  destruct (bool_decide_reflect (account = "")) as [Hacc|Hacc]; simpl.
  - symmetry. apply bool_decide_eq_true. by left.
  - apply bool_decide_ext. rewrite bytes_Compare_eq.
    split; [intros Heq; by right | intros [Heq|Heq]; done].
Qed.

(** The loop, [n] iterations from index [i]: the arrays of the caller's
    store [m0] stay as they were, and the result gains the selected
    elements [i .. i+n-1] of the input, in order, each with the group. *)
Lemma AssignGroupID_range_spec (m0 : Store) (txns : slice)
  (account : string) (decoded : Address) (gid : Digest) :
  slice_valid m0 txns ->
  forall (n i : nat) (result : slice) (m : Store),
    (i + n <= slice_len txns)%nat ->
    allocated_since m0 m result ->
    let out :=
      AssignGroupID_range growslice n i txns account decoded gid result m in
    allocated_since m0 (snd out) (fst out)
    /\ slice_elems (snd out) (fst out)
       = slice_elems m result
         ++ map (set_Group gid)
              (filter (selected account decoded)
                 (take n (drop i (slice_elems m0 txns)))).
Proof.
  intros Hvalid n. induction n as [|n IH]; intros i result m Hi Hinv; simpl.
  - rewrite app_nil_r. done.
  - destruct (slice_elems_frame m0 m txns) as [_ Hindex];
      [by destruct Hinv | exact Hvalid |].
    rewrite Hindex, selected_test.
    pose proof (slice_elems_lookup m0 txns i Hvalid) as Hlook.
    rewrite (drop_S _ _ _ (Hlook ltac:(lia))). simpl.
    rewrite filter_cons.
    replace (i + 1)%nat with (Datatypes.S i) by lia.
    destruct (decide (selected account decoded (slice_index m0 txns i)))
      as [Hsel|Hsel].
    + rewrite (bool_decide_eq_true_2 _ Hsel).
      pose proof (append_allocated_since m0 m result
                    (set_Group gid (slice_index m0 txns i)) Hinv)
        as [Hinv' Helems].
      destruct (append growslice result
                  (set_Group gid (slice_index m0 txns i)) m)
        as [result' m'].
      simpl in Hinv', Helems.
      destruct (IH (Datatypes.S i) result' m' ltac:(lia) Hinv')
        as [Hfinal Hout].
      split; [exact Hfinal|].
      rewrite Hout, Helems, <- app_assoc. done.
    + rewrite (bool_decide_eq_false_2 _ Hsel).
      apply IH; [lia | exact Hinv].
Qed.

(** The error paths: the named result is still [nil], and the store is
    the caller's. *)
Lemma AssignGroupID_group_error (txns : slice) (account : string)
  (m : Store) (gid : Digest) (e : error) :
  crypto.ComputeGroupID (slice_elems m txns) = (gid, Some e) ->
  AssignGroupID growslice txns account m = ((nilSlice, Some e), m).
Proof. intros Hgid. unfold AssignGroupID. rewrite Hgid. done. Qed.

Lemma AssignGroupID_decode_error (txns : slice) (account : string)
  (m : Store) (gid : Digest) (decoded : Address) (e : error) :
  crypto.ComputeGroupID (slice_elems m txns) = (gid, None) ->
  account <> "" ->
  DecodeAddress account = (decoded, Some e) ->
  AssignGroupID growslice txns account m = ((nilSlice, Some e), m).
Proof.
  intros Hgid Hacc Hdec. unfold AssignGroupID.
  rewrite Hgid, (bool_decide_eq_true_2 _ Hacc), Hdec. done.
Qed.

(** The success path, in terms of the loop. *)
Lemma AssignGroupID_success (txns : slice) (account : string) (m : Store)
  (gid : Digest) (decoded : Address) :
  crypto.ComputeGroupID (slice_elems m txns) = (gid, None) ->
  account = "" \/ DecodeAddress account = (decoded, None) ->
  exists decoded' : Address,
    (forall tx : Transaction,
       selected account decoded' tx <-> selected account decoded tx)
    /\ AssignGroupID growslice txns account m
       = ((fst (AssignGroupID_range growslice (slice_len txns) 0 txns
                  account decoded' gid nilSlice m), None),
          snd (AssignGroupID_range growslice (slice_len txns) 0 txns
                 account decoded' gid nilSlice m)).
Proof.
  intros Hgid Hacc. unfold AssignGroupID. rewrite Hgid.
  destruct (bool_decide_reflect (account <> "")) as [Hne|Heq].
  - destruct Hacc as [->|Hdec]; [done|].
    exists decoded. rewrite Hdec. split; [done|].
    destruct (AssignGroupID_range _ _ _ _ _ _ _ _ _). done.
  - exists zeroAddress. split.
    + intros tx. unfold selected.
      destruct (decide (account = "")) as [Hemp|Hne].
      * split; intros _; by left.
      * exfalso. by apply Heq.
    + destruct (AssignGroupID_range _ _ _ _ _ _ _ _ _). done.
Qed.

(** C2.  On a well-formed input slice, when the group identifier is
    computed without error from the whole input list, in order, and the
    filter is empty or decodes, [AssignGroupID] returns without error a
    slice holding, in input order, exactly the transactions whose
    [Sender] is the decoded filter (all of them for the empty filter),
    each with [Group] set to that identifier. *)
Theorem AssignGroupID_spec (txns : slice) (account : string) (m : Store)
  (gid : Digest) (decoded : Address) :
  slice_valid m txns ->
  crypto.ComputeGroupID (slice_elems m txns) = (gid, None) ->
  account = "" \/ DecodeAddress account = (decoded, None) ->
  exists (result : slice) (m' : Store),
    AssignGroupID growslice txns account m = ((result, None), m')
    /\ slice_elems m' result
       = map (set_Group gid)
           (filter (selected account decoded) (slice_elems m txns)).
Proof.
  intros Hvalid Hgid Hacc.
  destruct (AssignGroupID_success txns account m gid decoded Hgid Hacc)
    as (decoded' & Hsame & Hrun).
  rewrite Hrun. eexists _, _. split; [reflexivity|].
  destruct (AssignGroupID_range_spec m txns account decoded' gid Hvalid
              (slice_len txns) 0 nilSlice m ltac:(lia)
              (allocated_since_refl m)) as [_ Hout].
  rewrite Hout. simpl.
  rewrite <- (length_slice_elems m txns Hvalid), firstn_all.
  f_equal. apply list_filter_iff. exact Hsame.
Qed.

(** C9.  On a well-formed input slice [AssignGroupID] leaves every
    array of the caller's store as it was; in particular the input slice
    denotes the same transactions after the call as before, with their
    [Group] and every other field unchanged. *)
Theorem AssignGroupID_frame (txns : slice) (account : string) (m : Store) :
  slice_valid m txns ->
  let m' := snd (AssignGroupID growslice txns account m) in
  (forall l : loc, l ∈ dom m -> m' !! l = m !! l)
  /\ slice_elems m' txns = slice_elems m txns.
Proof.
  intros Hvalid m'.
  assert (forall l : loc, l ∈ dom m -> m' !! l = m !! l) as Hframe.
  { subst m'. unfold AssignGroupID.
    destruct (crypto.ComputeGroupID (slice_elems m txns)) as [gid [e|]];
      [done|].
    destruct (if bool_decide (account <> "") then DecodeAddress account
              else (zeroAddress, None)) as [decoded [e|]]; [done|].
    destruct (AssignGroupID_range_spec m txns account decoded gid Hvalid
                (slice_len txns) 0 nilSlice m ltac:(lia)
                (allocated_since_refl m)) as [(Hframe & _) _].
    destruct (AssignGroupID_range _ _ _ _ _ _ _ _ _). exact Hframe. }
  split; [exact Hframe|].
  apply (slice_elems_frame m m' txns Hframe Hvalid).
Qed.

End GroupFacts.

Lemma sample_txns_valid : @slice_valid sample.decls sample.store sample.txns.
Proof.
  split; [lia|]. exists sample.group. split; [reflexivity|simpl; lia].
Qed.

Lemma AssignGroupID_spec_witness :
  exists (result : slice) (m' : gmap loc (list (@Transaction sample.decls))),
    @AssignGroupID sample.decls sample.codec sample.signer sample.growslice
      sample.txns sample.addrA sample.store = ((result, None), m')
    /\ slice_elems m' result
       = map (set_Group (fst (sample.groupID sample.group)))
           (filter
              (selected sample.addrA
                 (fst (@DecodeAddress sample.codec sample.addrA)))
              (slice_elems sample.store sample.txns)).
Proof.
  apply (@AssignGroupID_spec sample.decls sample.codec sample.signer
           sample.growslice).
  - exact sample_txns_valid.
  - vm_compute. reflexivity.
  - right. vm_compute. reflexivity.
Defined.

Lemma AssignGroupID_frame_witness :
  let m' :=
    snd (@AssignGroupID sample.decls sample.codec sample.signer
           sample.growslice sample.txns sample.addrA sample.store) in
  (forall l : loc, l ∈ dom sample.store -> m' !! l = sample.store !! l)
  /\ slice_elems m' sample.txns = slice_elems sample.store sample.txns.
Proof.
  apply (@AssignGroupID_frame sample.decls sample.codec sample.signer
           sample.growslice).
  exact sample_txns_valid.
Defined.

(** ** The builder: [buildT] *)

Section BuilderFacts.
Context {D : Decls}.

Local Abbreviation Heap := (gmap loc Transaction).

Lemma assign_field_nil (tb : option TransactionBuilder.t)
  (set : TransactionBuilder.t -> Transaction -> Transaction) (h : Heap) :
  assign_field None tb set h = Panic nilDereference.
Proof. done. Qed.

Lemma assign_field_allocated (l : loc) (b : TransactionBuilder.t)
  (set : TransactionBuilder.t -> Transaction -> Transaction) (h : Heap)
  (obj : Transaction) :
  h !! l = Some obj ->
  assign_field (Some l) (Some b) set h = Done (<[l := set b obj]> h).
Proof. intros Hl. unfold assign_field. rewrite Hl. done. Qed.

(** The statements of [buildT] on an allocated target: the six field
    groups and the type of the builder are stored, the [Header] of the
    target is kept, and no other object changes. *)
Lemma buildT_body_allocated (l : loc) (b : TransactionBuilder.t) (h : Heap)
  (obj : Transaction) :
  h !! l = Some obj ->
  buildT_body (Some l) (Some b) h
  = Done (Some l,
          <[l := mkTransaction (TransactionBuilder.Type_ b) (Header_ obj)
                   (TransactionBuilder.KeyregTxnFields_ b)
                   (TransactionBuilder.PaymentTxnFields_ b)
                   (TransactionBuilder.AssetConfigTxnFields_ b)
                   (TransactionBuilder.AssetTransferTxnFields_ b)
                   (TransactionBuilder.AssetFreezeTxnFields_ b)
                   (TransactionBuilder.ApplicationCallTxnFields_ b)]> h).
Proof.
  intros Hl. unfold buildT_body.
  rewrite (assign_field_allocated l b _ h obj Hl). cbn [then_].
  repeat (erewrite assign_field_allocated by apply lookup_insert_eq;
          cbn [then_]; rewrite insert_insert_eq).
  done.
Qed.

(** C10.  For every builder, [buildT] stores through its result pointer
    while that pointer is still nil, so it panics and never returns;
    and its statements, run on any allocated target, copy the type and
    the six field groups of the builder but keep the target's [Header]:
    the builder's [Header] is never copied. *)
Theorem buildT_never_returns (tb : option TransactionBuilder.t)
  (h : Heap) :
  buildT tb h = Panic nilDereference
  /\ forall (l : loc) (b : TransactionBuilder.t) (obj : Transaction),
       h !! l = Some obj ->
       exists obj' : Transaction,
         buildT_body (Some l) (Some b) h = Done (Some l, <[l := obj']> h)
         /\ Header_ obj' = Header_ obj
         /\ Type_ obj' = TransactionBuilder.Type_ b
         /\ KeyregTxnFields_ obj' = TransactionBuilder.KeyregTxnFields_ b
         /\ PaymentTxnFields_ obj' = TransactionBuilder.PaymentTxnFields_ b
         /\ AssetConfigTxnFields_ obj'
            = TransactionBuilder.AssetConfigTxnFields_ b
         /\ AssetTransferTxnFields_ obj'
            = TransactionBuilder.AssetTransferTxnFields_ b
         /\ AssetFreezeTxnFields_ obj'
            = TransactionBuilder.AssetFreezeTxnFields_ b
         /\ ApplicationCallTxnFields_ obj'
            = TransactionBuilder.ApplicationCallTxnFields_ b.
Proof.
  split.
  - unfold buildT, buildT_body. rewrite assign_field_nil. done.
  - intros l b obj Hl. eexists. split.
    + apply buildT_body_allocated, Hl.
    + simpl. repeat split.
Qed.

(** [buildBT] and [build] hand over to [buildT] and panic with it. *)
Lemma build_never_returns
  (aupd : option ApplicationUpdateTransactionBuilder) (h : Heap) :
  build aupd h = Panic nilDereference
  /\ buildBT (ApplicationBaseTransactionBuilder_ <$> aupd) h
     = Panic nilDereference.
Proof.
  unfold build, buildBT, buildT, buildT_body.
  rewrite !assign_field_nil. done.
Qed.

End BuilderFacts.

(** ** More on the constructors: what a returned transaction holds *)

Section ConstructorResults.
Context {D : Decls} {C : AddressCodec} {Sg : crypto.Signer}
  {B : base64.StdEncoding}.

Lemma byte32FromBase64_inv (in_ : string) (out : list byte) :
  byte32FromBase64 in_ = (out, None) ->
  base64.DecodeString in_ = (out, None) /\ length out = 32%nat.
Proof.
  unfold byte32FromBase64.
  destruct (base64.DecodeString in_) as [slice [e|]]; [done|].
  destruct (bool_decide_reflect (length slice <> 32%nat)) as [Hne|Heq];
    [done|].
  assert (length slice = 32%nat) as Hlen
    by (destruct (decide (length slice = 32%nat)); [done|by destruct Heq]).
  rewrite copy_same_length by (rewrite length_zeroBytes; exact Hlen).
  intros [= <-]. done.
Qed.

Lemma length_list_byte_of_string (s : string) :
  length (list_byte_of_string s) = String.length s.
Proof.
  unfold list_byte_of_string. rewrite length_map.
  induction s as [|c s IH]; simpl; [done|]. by rewrite IH.
Qed.

(** Once the decoded strings are known to have 32 bytes, the remaining
    goals of a success path are closed by reading the equations. *)
Ltac use_byte32 :=
  repeat match goal with
         | H : byte32FromBase64 _ = (_, None) |- _ =>
             apply byte32FromBase64_inv in H; destruct H as [H ?]
         end.

(** The payment that [MakePaymentTxn] returns: sender and receiver are
    the decoded [from] and [to], the close-remainder address is the
    decoded [closeRemainderTo] or zero when that is empty, amount, rounds,
    note and genesis id are the arguments, the genesis hash has 32 bytes,
    the group is unset and the fields of the other kinds are zero. *)
Theorem MakePaymentTxn_success_fields (from to : string)
  (fee amount firstRound lastRound : Z) (note : list byte)
  (closeRemainderTo genesisID : string) (genesisHash : list byte)
  (rng : crypto.Entropy) :
  let r :=
    MakePaymentTxn from to fee amount firstRound lastRound note
      closeRemainderTo genesisID genesisHash rng in
  let tx := fst (fst r) in
  snd (fst r) = None ->
  DecodeAddress from = (Sender (Header_ tx), None)
  /\ DecodeAddress to = (Receiver (PaymentTxnFields_ tx), None)
  /\ (closeRemainderTo = "" ->
      CloseRemainderTo (PaymentTxnFields_ tx) = zeroAddress)
  /\ (closeRemainderTo <> "" ->
      DecodeAddress closeRemainderTo
      = (CloseRemainderTo (PaymentTxnFields_ tx), None))
  /\ Type_ tx = PaymentTx
  /\ Amount (PaymentTxnFields_ tx) = amount
  /\ FirstValid (Header_ tx) = firstRound
  /\ LastValid (Header_ tx) = lastRound
  /\ Note (Header_ tx) = note
  /\ GenesisID (Header_ tx) = genesisID
  /\ length (GenesisHash (Header_ tx)) = 32%nat
  /\ Group (Header_ tx) = zeroDigest
  /\ KeyregTxnFields_ tx = zeroKeyregTxnFields
  /\ AssetConfigTxnFields_ tx = zeroAssetConfigTxnFields
  /\ AssetTransferTxnFields_ tx = zeroAssetTransferTxnFields
  /\ AssetFreezeTxnFields_ tx = zeroAssetFreezeTxnFields
  /\ ApplicationCallTxnFields_ tx = zeroApplicationCallTxnFields.
Proof.
  unfold MakePaymentTxn. step_body; try done; intros _.
  all: reflect_decisions; repeat split; try done.
  all: try (apply length_copy).
Qed.

(** The key registration that [MakeKeyRegTxn] returns: the sender is the
    decoded account, and genesis hash, vote key and selection key are
    the base64-decoded arguments, each of exactly 32 bytes; the rounds,
    the dilution, note and genesis id are the arguments. *)
Theorem MakeKeyRegTxn_success_fields (account : string)
  (feePerByte firstRound lastRound : Z) (note : list byte)
  (genesisID genesisHash voteKey selectionKey : string)
  (voteFirst voteLast voteKeyDilution : Z) (rng : crypto.Entropy) :
  let r :=
    MakeKeyRegTxn account feePerByte firstRound lastRound note genesisID
      genesisHash voteKey selectionKey voteFirst voteLast voteKeyDilution
      rng in
  let tx := fst (fst r) in
  snd (fst r) = None ->
  DecodeAddress account = (Sender (Header_ tx), None)
  /\ base64.DecodeString genesisHash = (GenesisHash (Header_ tx), None)
  /\ length (GenesisHash (Header_ tx)) = 32%nat
  /\ base64.DecodeString voteKey = (VotePK (KeyregTxnFields_ tx), None)
  /\ length (VotePK (KeyregTxnFields_ tx)) = 32%nat
  /\ base64.DecodeString selectionKey
     = (SelectionPK (KeyregTxnFields_ tx), None)
  /\ length (SelectionPK (KeyregTxnFields_ tx)) = 32%nat
  /\ Type_ tx = KeyRegistrationTx
  /\ VoteFirst (KeyregTxnFields_ tx) = voteFirst
  /\ VoteLast (KeyregTxnFields_ tx) = voteLast
  /\ VoteKeyDilution (KeyregTxnFields_ tx) = voteKeyDilution
  /\ FirstValid (Header_ tx) = firstRound
  /\ LastValid (Header_ tx) = lastRound
  /\ Note (Header_ tx) = note
  /\ GenesisID (Header_ tx) = genesisID
  /\ Group (Header_ tx) = zeroDigest
  /\ PaymentTxnFields_ tx = zeroPaymentTxnFields
  /\ AssetConfigTxnFields_ tx = zeroAssetConfigTxnFields.
Proof.
  unfold MakeKeyRegTxn. step_body; try done; intros _.
  all: use_byte32; repeat split; done.
Qed.

(** The asset creation that [MakeAssetCreateTxn] returns: unit name and
    asset name fit their arrays and fill them from the left, the rest
    of each array being zero bytes; each of manager, reserve, freeze and
    clawback is the decoded argument, or zero when the argument is
    empty; the sender is the decoded account and the genesis hash the
    decoded argument, of 32 bytes. *)
Theorem MakeAssetCreateTxn_success_fields (account : string)
  (feePerByte firstRound lastRound : Z) (note : list byte)
  (genesisID genesisHash : string) (total : Z) (defaultFrozen : bool)
  (manager reserve freeze clawback unitName assetName : string)
  (rng : crypto.Entropy) :
  let r :=
    MakeAssetCreateTxn account feePerByte firstRound lastRound note genesisID
      genesisHash total defaultFrozen manager reserve freeze clawback
      unitName assetName rng in
  let tx := fst (fst r) in
  let p := AssetParams_of tx in
  snd (fst r) = None ->
  (String.length unitName <= UnitNameLen)%nat
  /\ UnitName p
     = list_byte_of_string unitName
       ++ zeroBytes (UnitNameLen - String.length unitName)
  /\ (String.length assetName <= AssetNameLen)%nat
  /\ AssetName p
     = list_byte_of_string assetName
       ++ zeroBytes (AssetNameLen - String.length assetName)
  /\ (manager = "" -> Manager p = zeroAddress)
  /\ (manager <> "" -> DecodeAddress manager = (Manager p, None))
  /\ (reserve = "" -> Reserve p = zeroAddress)
  /\ (reserve <> "" -> DecodeAddress reserve = (Reserve p, None))
  /\ (freeze = "" -> Freeze p = zeroAddress)
  /\ (freeze <> "" -> DecodeAddress freeze = (Freeze p, None))
  /\ (clawback = "" -> Clawback p = zeroAddress)
  /\ (clawback <> "" -> DecodeAddress clawback = (Clawback p, None))
  /\ Type_ tx = AssetConfigTx
  /\ Total p = total
  /\ DefaultFrozen p = defaultFrozen
  /\ DecodeAddress account = (Sender (Header_ tx), None)
  /\ base64.DecodeString genesisHash = (GenesisHash (Header_ tx), None)
  /\ length (GenesisHash (Header_ tx)) = 32%nat
  /\ FirstValid (Header_ tx) = firstRound
  /\ LastValid (Header_ tx) = lastRound
  /\ Note (Header_ tx) = note
  /\ GenesisID (Header_ tx) = genesisID
  /\ Group (Header_ tx) = zeroDigest.
Proof.
  unfold MakeAssetCreateTxn. step_body; try done; intros _.
  all: use_byte32; reflect_decisions.
  all: rewrite ?length_zeroBytes in *.
  all: repeat split; try done; try lia.
  all: rewrite copy_zeroBytes, <- ?length_list_byte_of_string.
  all: rewrite take_ge by (rewrite length_list_byte_of_string; lia).
  all: done.
Qed.

(** *** Errors and the order of the checks *)

(** The constructors that hand back the zero record with every error:
    the payment and key-registration constructors and all three
    flat-fee variants (the asset one included, whose wrapper discards
    what [MakeAssetCreateTxn] handed back). *)
Theorem errors_hand_back_zero_record (from to account : string)
  (fee amount firstRound lastRound : Z) (note : list byte)
  (closeRemainderTo genesisID : string) (genesisHashBytes : list byte)
  (genesisHash voteKey selectionKey : string)
  (voteFirst voteLast voteKeyDilution total : Z) (defaultFrozen : bool)
  (manager reserve freeze clawback unitName assetName : string)
  (rng : crypto.Entropy) :
  let zeroed (r : (Transaction * option error) * crypto.Entropy) :=
    is_Some (snd (fst r)) -> fst (fst r) = zeroTransaction in
  zeroed (MakePaymentTxn from to fee amount firstRound lastRound note
            closeRemainderTo genesisID genesisHashBytes rng)
  /\ zeroed (MakePaymentTxnWithFlatFee from to fee amount firstRound
               lastRound note closeRemainderTo genesisID genesisHashBytes
               rng)
  /\ zeroed (MakeKeyRegTxn account fee firstRound lastRound note genesisID
               genesisHash voteKey selectionKey voteFirst voteLast
               voteKeyDilution rng)
  /\ zeroed (MakeKeyRegTxnWithFlatFee account fee firstRound lastRound note
               genesisID genesisHash voteKey selectionKey voteFirst voteLast
               voteKeyDilution rng)
  /\ zeroed (MakeAssetCreateTxnWithFlatFee account fee firstRound lastRound
               note genesisID genesisHash total defaultFrozen manager
               reserve freeze clawback unitName assetName rng).
Proof.
  cbv zeta. repeat split.
  - apply MakePaymentTxn_error_zero.
  - eapply flat_fee_variant_errors,
      (flat_fee_wrapper
         (MakePaymentTxn from to fee amount firstRound lastRound note
            closeRemainderTo genesisID genesisHashBytes)).
  - apply MakeKeyRegTxn_error_zero.
  - eapply flat_fee_variant_errors,
      (flat_fee_wrapper
         (MakeKeyRegTxn account fee firstRound lastRound note genesisID
            genesisHash voteKey selectionKey voteFirst voteLast
            voteKeyDilution)).
  - eapply flat_fee_variant_errors,
      (flat_fee_wrapper
         (MakeAssetCreateTxn account fee firstRound lastRound note genesisID
            genesisHash total defaultFrozen manager reserve freeze clawback
            unitName assetName)).
Qed.

(** [estimateSize] draws one key, whether signing succeeds or not. *)
Lemma estimateSize_entropy (txn : Transaction) (rng : crypto.Entropy) :
  snd (estimateSize txn rng) = snd (crypto.GenerateAccount rng).
Proof. unfold estimateSize. step_body; done. Qed.

Lemma MakePaymentTxn_entropy from to fee amount firstRound lastRound note
  closeRemainderTo genesisID genesisHash rng :
  let r :=
    MakePaymentTxn from to fee amount firstRound lastRound note
      closeRemainderTo genesisID genesisHash rng in
  snd r = rng /\ is_Some (snd (fst r))
  \/ snd r = snd (crypto.GenerateAccount rng).
Proof.
  unfold MakePaymentTxn. step_body; eauto.
  all: right.
  all: match goal with
       | H : estimateSize ?t ?g = _ |- _ =>
           rewrite <- (estimateSize_entropy t g), H
       end; done.
Qed.

Lemma MakeKeyRegTxn_entropy account feePerByte firstRound lastRound note
  genesisID genesisHash voteKey selectionKey voteFirst voteLast
  voteKeyDilution rng :
  let r :=
    MakeKeyRegTxn account feePerByte firstRound lastRound note genesisID
      genesisHash voteKey selectionKey voteFirst voteLast voteKeyDilution
      rng in
  snd r = rng /\ is_Some (snd (fst r))
  \/ snd r = snd (crypto.GenerateAccount rng).
Proof.
  unfold MakeKeyRegTxn. step_body; eauto.
  all: right.
  all: match goal with
       | H : estimateSize ?t ?g = _ |- _ =>
           rewrite <- (estimateSize_entropy t g), H
       end; done.
Qed.

Lemma MakeAssetCreateTxn_entropy account feePerByte firstRound lastRound
  note genesisID genesisHash total defaultFrozen manager reserve freeze
  clawback unitName assetName rng :
  let r :=
    MakeAssetCreateTxn account feePerByte firstRound lastRound note genesisID
      genesisHash total defaultFrozen manager reserve freeze clawback
      unitName assetName rng in
  snd r = rng /\ is_Some (snd (fst r))
  \/ snd r = snd (crypto.GenerateAccount rng).
Proof.
  unfold MakeAssetCreateTxn. step_body; eauto.
  all: right.
  all: match goal with
       | H : estimateSize ?t ?g = _ |- _ =>
           rewrite <- (estimateSize_entropy t g), H
       end; done.
Qed.

Lemma flat_fee_variant_entropy flat perByte fee rng :
  flat_fee_variant flat perByte fee ->
  snd (perByte rng) = rng /\ is_Some (snd (fst (perByte rng)))
  \/ snd (perByte rng) = snd (crypto.GenerateAccount rng) ->
  snd (flat rng) = rng /\ is_Some (snd (fst (flat rng)))
  \/ snd (flat rng) = snd (crypto.GenerateAccount rng).
Proof.
  intros Hv. destruct (Hv rng) as (Herr & Hrng & _ & _).
  rewrite Herr, Hrng. done.
Qed.

(** Every constructor draws at most one disposable key: either it
    failed before the size estimate and left the entropy untouched, or it
    drew exactly one key, for the one estimate it makes. *)
Theorem constructors_draw_at_most_one_key (from to account : string)
  (fee amount firstRound lastRound : Z) (note : list byte)
  (closeRemainderTo genesisID : string) (genesisHashBytes : list byte)
  (genesisHash voteKey selectionKey : string)
  (voteFirst voteLast voteKeyDilution total : Z) (defaultFrozen : bool)
  (manager reserve freeze clawback unitName assetName : string)
  (rng : crypto.Entropy) :
  let one_key (r : (Transaction * option error) * crypto.Entropy) :=
    snd r = rng /\ is_Some (snd (fst r))
    \/ snd r = snd (crypto.GenerateAccount rng) in
  one_key (MakePaymentTxn from to fee amount firstRound lastRound note
             closeRemainderTo genesisID genesisHashBytes rng)
  /\ one_key (MakePaymentTxnWithFlatFee from to fee amount firstRound
                lastRound note closeRemainderTo genesisID genesisHashBytes
                rng)
  /\ one_key (MakeKeyRegTxn account fee firstRound lastRound note genesisID
                genesisHash voteKey selectionKey voteFirst voteLast
                voteKeyDilution rng)
  /\ one_key (MakeKeyRegTxnWithFlatFee account fee firstRound lastRound note
                genesisID genesisHash voteKey selectionKey voteFirst
                voteLast voteKeyDilution rng)
  /\ one_key (MakeAssetCreateTxn account fee firstRound lastRound note
                genesisID genesisHash total defaultFrozen manager reserve
                freeze clawback unitName assetName rng)
  /\ one_key (MakeAssetCreateTxnWithFlatFee account fee firstRound lastRound
                note genesisID genesisHash total defaultFrozen manager
                reserve freeze clawback unitName assetName rng).
Proof.
  cbv zeta. repeat apply conj.
  - apply MakePaymentTxn_entropy.
  - eapply flat_fee_variant_entropy;
      [apply (flat_fee_wrapper
                (MakePaymentTxn from to fee amount firstRound lastRound note
                   closeRemainderTo genesisID genesisHashBytes))
      |apply MakePaymentTxn_entropy].
  - apply MakeKeyRegTxn_entropy.
  - eapply flat_fee_variant_entropy;
      [apply (flat_fee_wrapper
                (MakeKeyRegTxn account fee firstRound lastRound note
                   genesisID genesisHash voteKey selectionKey voteFirst
                   voteLast voteKeyDilution))
      |apply MakeKeyRegTxn_entropy].
  - apply MakeAssetCreateTxn_entropy.
  - eapply flat_fee_variant_entropy;
      [apply (flat_fee_wrapper
                (MakeAssetCreateTxn account fee firstRound lastRound note
                   genesisID genesisHash total defaultFrozen manager reserve
                   freeze clawback unitName assetName))
      |apply MakeAssetCreateTxn_entropy].
Qed.

(** [MakePaymentTxn] checks in the order sender, receiver,
    close-remainder address, genesis hash, and reports the first check
    that fails, with the zero record and without drawing a key: a bad
    sender is reported whatever the other arguments are, and the missing
    genesis hash only once the addresses have decoded. *)
Theorem MakePaymentTxn_first_failure (from to : string)
  (fee amount firstRound lastRound : Z) (note : list byte)
  (closeRemainderTo genesisID : string) (genesisHash : list byte)
  (rng : crypto.Entropy) :
  let r :=
    MakePaymentTxn from to fee amount firstRound lastRound note
      closeRemainderTo genesisID genesisHash rng in
  (forall e : error,
     snd (DecodeAddress from) = Some e -> r = ((zeroTransaction, Some e), rng))
  /\ (forall e : error,
        snd (DecodeAddress from) = None ->
        snd (DecodeAddress to) = Some e ->
        r = ((zeroTransaction, Some e), rng))
  /\ (forall e : error,
        snd (DecodeAddress from) = None ->
        snd (DecodeAddress to) = None ->
        closeRemainderTo <> "" ->
        snd (DecodeAddress closeRemainderTo) = Some e ->
        r = ((zeroTransaction, Some e), rng))
  /\ (snd (DecodeAddress from) = None ->
      snd (DecodeAddress to) = None ->
      closeRemainderTo = "" \/ snd (DecodeAddress closeRemainderTo) = None ->
      length genesisHash = 0%nat ->
      r = ((zeroTransaction,
            Some "payment transaction must contain a genesisHash"), rng)).
Proof.
  unfold MakePaymentTxn.
  destruct (DecodeAddress from) as [fromAddr efrom].
  destruct (DecodeAddress to) as [toAddr eto]. simpl.
  repeat split.
  - intros e ->. done.
  - intros e -> ->. done.
  - intros e -> -> Hne. rewrite (bool_decide_eq_true_2 _ Hne).
    destruct (DecodeAddress closeRemainderTo) as [closeAddr eclose]. simpl.
    intros ->. done.
  - intros -> -> Hclose Hlen. rewrite (bool_decide_eq_true_2 _ Hlen).
    destruct (bool_decide_reflect (closeRemainderTo <> "")) as [Hne|Heq];
      [|done].
    destruct Hclose as [->|Hclose]; [done|].
    destruct (DecodeAddress closeRemainderTo) as [closeAddr eclose].
    simpl in Hclose. subst eclose. done.
Qed.

(** [MakeAssetCreateTxn] checks the optional addresses and the two
    names before it looks at the account and the genesis hash: once the
    optional addresses are empty or decode, an over-long unit name is
    reported whatever the account and the genesis hash are, with a
    message that names the field, the value and the limit, and no key is
    drawn; the same for the asset name once the unit name fits. *)
Theorem MakeAssetCreateTxn_name_too_long (account : string)
  (feePerByte firstRound lastRound : Z) (note : list byte)
  (genesisID genesisHash : string) (total : Z) (defaultFrozen : bool)
  (manager reserve freeze clawback unitName assetName : string)
  (rng : crypto.Entropy) :
  let r :=
    MakeAssetCreateTxn account feePerByte firstRound lastRound note genesisID
      genesisHash total defaultFrozen manager reserve freeze clawback
      unitName assetName rng in
  let decodes (s : string) := s = "" \/ snd (DecodeAddress s) = None in
  decodes manager -> decodes reserve -> decodes freeze -> decodes clawback ->
  ((UnitNameLen < String.length unitName)%nat ->
   snd (fst r)
   = Some ("asset unit name " +:+ unitName +:+ " too long (max "
           +:+ pretty UnitNameLen +:+ " bytes)")
   /\ snd r = rng)
  /\ ((String.length unitName <= UnitNameLen)%nat ->
      (AssetNameLen < String.length assetName)%nat ->
      snd (fst r)
      = Some ("asset name " +:+ assetName +:+ " too long (max "
              +:+ pretty AssetNameLen +:+ " bytes)")
      /\ snd r = rng).
Proof.
  intros r decodes Hm Hr Hf Hc. subst r decodes. cbv beta in Hm, Hr, Hf, Hc.
  unfold MakeAssetCreateTxn.
  split; [intros Hlong|intros Hfit Hlong].
  all: step_body; reflect_decisions; rewrite ?length_zeroBytes in *.
  all: try lia.
  all: try done.
  all: repeat match goal with
       | H : _ = "" \/ _ |- _ => destruct H as [H|H]; try done
       end.
Qed.

(** The fee of a returned transaction, from the size that was
    estimated for it: the payment and key-registration constructors
    give the product of size and rate, wrapped to 64 bits, or the floor
    when that is larger; [MakeAssetCreateTxn] gives the wrapped product
    as it is. *)
Theorem per_byte_fee_formula (from to account : string)
  (rate amount firstRound lastRound : Z) (note : list byte)
  (closeRemainderTo genesisID : string) (genesisHashBytes : list byte)
  (genesisHash voteKey selectionKey : string)
  (voteFirst voteLast voteKeyDilution total : Z) (defaultFrozen : bool)
  (manager reserve freeze clawback unitName assetName : string)
  (rng : crypto.Entropy) :
  let size (tx : Transaction) :=
    fst (fst (estimateSize (set_Fee rate tx) rng)) in
  let fee_is (clamp : bool)
    (r : (Transaction * option error) * crypto.Entropy) :=
    snd (fst r) = None ->
    Fee (Header_ (fst (fst r)))
    = if clamp
      then Z.max (uint64 (size (fst (fst r)) * rate)) MinTxnFee
      else uint64 (size (fst (fst r)) * rate) in
  fee_is true
    (MakePaymentTxn from to rate amount firstRound lastRound note
       closeRemainderTo genesisID genesisHashBytes rng)
  /\ fee_is true
       (MakeKeyRegTxn account rate firstRound lastRound note genesisID
          genesisHash voteKey selectionKey voteFirst voteLast
          voteKeyDilution rng)
  /\ fee_is false
       (MakeAssetCreateTxn account rate firstRound lastRound note genesisID
          genesisHash total defaultFrozen manager reserve freeze clawback
          unitName assetName rng).
Proof.
  cbv zeta.
  assert (forall (mk : Z -> Rand (Transaction * option error))
            (tx : Transaction),
            fst (mk rate rng) = (tx, None) ->
            snd (fst (estimateSize (set_Fee rate tx) rng)) = None ->
            measured mk rate rng
              (fst (fst (estimateSize (set_Fee rate tx) rng))) tx)
    as Hmeasured.
  { intros mk tx Hret Hok. split; [exact Hret|].
    destruct (estimateSize (set_Fee rate tx) rng) as [[s e] g].
    simpl in *. by subst e. }
  repeat split.
  - intros Hok.
    apply MakePaymentTxn_measured with
      (from := from) (to := to) (amount := amount)
      (firstRound := firstRound) (lastRound := lastRound) (note := note)
      (closeRemainderTo := closeRemainderTo) (genesisID := genesisID)
      (genesisHash := genesisHashBytes) (rng := rng).
    apply Hmeasured.
    + destruct (MakePaymentTxn _ _ _ _ _ _ _ _ _ _ _) as [[tx e] g].
      simpl in *. by subst e.
    + revert Hok. unfold MakePaymentTxn.
      step_body; try done; intros _.
      all: unfold set_Fee, set_Header, Header_set_Fee in *; cbn in *.
      all: match goal with
           | H : estimateSize _ _ = _ |- _ => rewrite H
           end; done.
  - intros Hok.
    apply MakeKeyRegTxn_measured with
      (account := account) (firstRound := firstRound)
      (lastRound := lastRound) (note := note) (genesisID := genesisID)
      (genesisHash := genesisHash) (voteKey := voteKey)
      (selectionKey := selectionKey) (voteFirst := voteFirst)
      (voteLast := voteLast) (voteKeyDilution := voteKeyDilution)
      (rng := rng).
    apply Hmeasured.
    + destruct (MakeKeyRegTxn _ _ _ _ _ _ _ _ _ _ _ _ _) as [[tx e] g].
      simpl in *. by subst e.
    + revert Hok. unfold MakeKeyRegTxn.
      step_body; try done; intros _.
      all: unfold set_Fee, set_Header, Header_set_Fee in *; cbn in *.
      all: match goal with
           | H : estimateSize _ _ = _ |- _ => rewrite H
           end; done.
  - intros Hok.
    apply MakeAssetCreateTxn_measured with
      (account := account) (firstRound := firstRound)
      (lastRound := lastRound) (note := note) (genesisID := genesisID)
      (genesisHash := genesisHash) (total := total)
      (defaultFrozen := defaultFrozen) (manager := manager)
      (reserve := reserve) (freeze := freeze) (clawback := clawback)
      (unitName := unitName) (assetName := assetName) (rng := rng).
    apply Hmeasured.
    + destruct (MakeAssetCreateTxn _ _ _ _ _ _ _ _ _ _ _ _ _ _ _ _)
        as [[tx e] g].
      simpl in *. by subst e.
    + revert Hok. unfold MakeAssetCreateTxn.
      step_body; try done; intros _.
      all: unfold set_Fee, set_Header, Header_set_Fee in *; cbn in *.
      all: match goal with
           | H : estimateSize _ _ = _ |- _ => rewrite H
           end; done.
Qed.

End ConstructorResults.

Lemma MakePaymentTxn_success_fields_witness :
  let r :=
    @MakePaymentTxn sample.decls sample.codec sample.signer sample.addrA
      sample.addrB 10 5000000 1000 2000 [] "" "testnet-v1.0" (zeroBytes 32)
      0%nat in
  snd (fst r) = None
  /\ @DecodeAddress sample.codec sample.addrA
     = (Sender (Header_ (fst (fst r))), None)
  /\ @DecodeAddress sample.codec sample.addrB
     = (Receiver (PaymentTxnFields_ (fst (fst r))), None).
Proof.
  intros r.
  assert (snd (fst r) = None) as Hok by (vm_compute; reflexivity).
  split; [exact Hok|].
  pose proof (@MakePaymentTxn_success_fields sample.decls sample.codec
                sample.signer sample.addrA sample.addrB 10 5000000 1000
                2000 [] "" "testnet-v1.0" (zeroBytes 32) 0%nat Hok)
    as (Hfrom & Hto & _).
  split; [exact Hfrom | exact Hto].
Defined.

Lemma MakeKeyRegTxn_success_fields_witness :
  let r :=
    @MakeKeyRegTxn sample.decls sample.codec sample.signer
      sample.stdEncoding sample.addrA 10 1000 2000 [] "testnet-v1.0"
      sample.zeros32_b64 sample.zeros32_b64 sample.zeros32_b64 1 100 10
      0%nat in
  snd (fst r) = None
  /\ length (VotePK (KeyregTxnFields_ (fst (fst r)))) = 32%nat
  /\ length (SelectionPK (KeyregTxnFields_ (fst (fst r)))) = 32%nat.
Proof.
  intros r.
  assert (snd (fst r) = None) as Hok by (vm_compute; reflexivity).
  split; [exact Hok|].
  pose proof (@MakeKeyRegTxn_success_fields sample.decls sample.codec
                sample.signer sample.stdEncoding sample.addrA 10 1000 2000
                [] "testnet-v1.0" sample.zeros32_b64 sample.zeros32_b64
                sample.zeros32_b64 1 100 10 0%nat Hok)
    as (_ & _ & _ & _ & Hvote & _ & Hsel & _).
  split; [exact Hvote | exact Hsel].
Defined.

Lemma MakeAssetCreateTxn_success_fields_witness :
  let r :=
    @MakeAssetCreateTxn sample.decls sample.codec sample.signer
      sample.stdEncoding sample.addrA 10 1000 2000 [] "testnet-v1.0"
      sample.zeros32_b64 5 false sample.addrB "" "" "" "UNIT" "an asset"
      0%nat in
  snd (fst r) = None
  /\ UnitName (AssetParams_of (fst (fst r)))
     = list_byte_of_string "UNIT" ++ zeroBytes 4
  /\ Reserve (AssetParams_of (fst (fst r))) = zeroAddress.
Proof.
  intros r.
  assert (snd (fst r) = None) as Hok by (vm_compute; reflexivity).
  split; [exact Hok|].
  pose proof (@MakeAssetCreateTxn_success_fields sample.decls sample.codec
                sample.signer sample.stdEncoding sample.addrA 10 1000 2000
                [] "testnet-v1.0" sample.zeros32_b64 5 false sample.addrB ""
                "" "" "UNIT" "an asset" 0%nat Hok)
    as (_ & Hunit & _ & _ & _ & _ & Hreserve & _).
  split; [exact Hunit | exact (Hreserve eq_refl)].
Defined.

Lemma MakeAssetCreateTxn_name_too_long_witness :
  let r :=
    @MakeAssetCreateTxn sample.decls sample.codec sample.signer
      sample.stdEncoding "no account" 10 1000 2000 [] "testnet-v1.0"
      "no hash" 5 false "" "" "" "" "123456789" "" 0%nat in
  snd (fst r)
  = Some ("asset unit name " +:+ "123456789" +:+ " too long (max "
          +:+ pretty 8%nat +:+ " bytes)")
  /\ snd r = 0%nat.
Proof.
  apply (@MakeAssetCreateTxn_name_too_long sample.decls sample.codec
           sample.signer sample.stdEncoding "no account" 10 1000 2000 []
           "testnet-v1.0" "no hash" 5 false "" "" "" "" "123456789" "").
  - left; reflexivity.
  - left; reflexivity.
  - left; reflexivity.
  - left; reflexivity.
  - vm_compute. lia.
Defined.

Lemma MakePaymentTxn_first_failure_witness :
  @MakePaymentTxn sample.decls sample.codec sample.signer sample.addrA
    sample.addrB 10 5000000 1000 2000 [] "" "testnet-v1.0" [] 0%nat
  = ((zeroTransaction,
      Some "payment transaction must contain a genesisHash"), 0%nat).
Proof.
  apply (@MakePaymentTxn_first_failure sample.decls sample.codec
           sample.signer sample.addrA sample.addrB 10 5000000 1000 2000 []
           "" "testnet-v1.0" [] 0%nat).
  - vm_compute. reflexivity.
  - vm_compute. reflexivity.
  - left. reflexivity.
  - reflexivity.
Defined.

Lemma per_byte_fee_formula_witness :
  let r :=
    @MakePaymentTxn sample.decls sample.codec sample.signer sample.addrA
      sample.addrB 10 5000000 1000 2000 [] "" "testnet-v1.0" (zeroBytes 32)
      0%nat in
  Fee (Header_ (fst (fst r)))
  = Z.max
      (uint64
         (fst (fst (@estimateSize sample.decls sample.signer
                      (set_Fee 10 (fst (fst r))) 0%nat)) * 10))
      MinTxnFee.
Proof.
  apply (@per_byte_fee_formula sample.decls sample.codec sample.signer
           sample.stdEncoding sample.addrA sample.addrB sample.addrA 10
           5000000 1000 2000 [] "" "testnet-v1.0" (zeroBytes 32)
           sample.zeros32_b64 sample.zeros32_b64 sample.zeros32_b64 1 100 10
           5 false "" "" "" "" "" "" 0%nat).
  vm_compute. reflexivity.
Defined.

Lemma errors_hand_back_zero_record_witness :
  fst (fst (@MakeKeyRegTxn sample.decls sample.codec sample.signer
              sample.stdEncoding sample.addrA 10 1000 2000 []
              "testnet-v1.0" sample.zeros32_b64 "AAAA" sample.zeros32_b64 1
              100 10 0%nat))
  = zeroTransaction.
Proof.
  apply (@errors_hand_back_zero_record sample.decls sample.codec
           sample.signer sample.stdEncoding sample.addrA sample.addrB
           sample.addrA 10 5000000 1000 2000 [] "" "testnet-v1.0"
           (zeroBytes 32) sample.zeros32_b64 "AAAA" sample.zeros32_b64 1 100
           10 5 false "" "" "" "" "" "" 0%nat).
  vm_compute. eauto.
Defined.

(** ** More on [AssignGroupID]: errors, empty results, fresh arrays *)

Section GroupResults.
Context {D : Decls} {C : AddressCodec} {Sg : crypto.Signer}.
Variable growslice : nat -> nat.

Local Abbreviation Store := (gmap loc (list Transaction)).

(** When [AssignGroupID] returns an error the result is the nil slice
    and the store is the caller's, nothing having been allocated.  The
    error is the one of the group computation when there is one, and the
    filter is decoded only after the group identifier was computed. *)
Theorem AssignGroupID_error_returns_nil (txns : slice) (account : string)
  (m : Store) :
  let r := AssignGroupID growslice txns account m in
  is_Some (snd (fst r)) ->
  fst (fst r) = nilSlice
  /\ snd r = m
  /\ (snd (fst r) = snd (crypto.ComputeGroupID (slice_elems m txns))
      \/ snd (crypto.ComputeGroupID (slice_elems m txns)) = None
         /\ account <> ""
         /\ snd (fst r) = snd (DecodeAddress account)).
Proof.
  unfold AssignGroupID.
  destruct (crypto.ComputeGroupID (slice_elems m txns)) as [gid [e|]];
    simpl; [intros _; split; [done|split; [done|by left]]|].
  destruct (bool_decide_reflect (account <> "")) as [Hne|Heq].
  - destruct (DecodeAddress account) as [decoded [e|]]; simpl.
    + intros _. split; [done|split; [done|by right]].
    + destruct (AssignGroupID_range _ _ _ _ _ _ _ _ _). simpl.
      intros [? ?]; done.
  - destruct (AssignGroupID_range _ _ _ _ _ _ _ _ _). simpl.
    intros [? ?]; done.
Qed.

(** A run of the loop over elements none of which is selected changes
    neither the result nor the store. *)
Lemma AssignGroupID_range_none (txns : slice) (account : string)
  (decoded : Address) (gid : Digest) (m : Store) (result : slice) :
  forall n i : nat,
    (forall j : nat,
       (i <= j < i + n)%nat ->
       ~ selected account decoded (slice_index m txns j)) ->
    AssignGroupID_range growslice n i txns account decoded gid result m
    = (result, m).
Proof.
  intros n. induction n as [|n IH]; intros i Hnone; simpl; [done|].
  rewrite selected_test.
  rewrite bool_decide_eq_false_2 by (apply Hnone; lia).
  apply IH. intros j Hj. apply Hnone. lia.
Qed.

(** When no transaction of a well-formed input is selected, and in
    particular when the input is empty, [AssignGroupID] returns the nil
    slice and leaves the store exactly as it was, error or not. *)
Theorem AssignGroupID_nothing_selected (txns : slice) (account : string)
  (m : Store) :
  slice_valid m txns ->
  Forall (fun tx => ~ selected account (fst (DecodeAddress account)) tx)
    (slice_elems m txns) ->
  fst (fst (AssignGroupID growslice txns account m)) = nilSlice
  /\ snd (AssignGroupID growslice txns account m) = m.
Proof.
  intros Hvalid Hnone.
  assert (forall decoded : Address,
            account = "" \/ decoded = fst (DecodeAddress account) ->
            forall j : nat,
              (0 <= j < 0 + slice_len txns)%nat ->
              ~ selected account decoded (slice_index m txns j)) as Hidx.
  { intros decoded Hdec j Hj.
    pose proof (slice_elems_lookup m txns j Hvalid ltac:(lia)) as Hlook.
    pose proof (proj1 (Forall_lookup _ _) Hnone j _ Hlook) as Hj'.
    destruct Hdec as [->| ->]; [|exact Hj'].
    exfalso. apply Hj'. by left. }
  unfold AssignGroupID.
  destruct (crypto.ComputeGroupID (slice_elems m txns)) as [gid [e|]];
    simpl; [done|].
  destruct (bool_decide_reflect (account <> "")) as [Hne|Heq].
  - destruct (DecodeAddress account) as [decoded [e|]] eqn:Hdec;
      simpl; [done|].
    rewrite AssignGroupID_range_none; [done|].
    apply Hidx. right. done.
  - rewrite AssignGroupID_range_none; [done|].
    apply Hidx. left.
    destruct (decide (account = "")) as [Hemp|Hne]; [done|].
    exfalso. by apply Heq.
Qed.

(** The slice that [AssignGroupID] returns on a well-formed input is
    nil or well formed, and its backing array is one the call allocated:
    it shares no array with any slice that existed before the call. *)
Theorem AssignGroupID_result_fresh (txns : slice) (account : string)
  (m : Store) :
  slice_valid m txns ->
  let r := AssignGroupID growslice txns account m in
  slice_valid (snd r) (fst (fst r))
  /\ match fst (fst r) with
     | nilSlice => True
     | Slice a _ _ _ => a ∉ dom m
     end.
Proof.
  intros Hvalid. unfold AssignGroupID.
  destruct (crypto.ComputeGroupID (slice_elems m txns)) as [gid [e|]];
    simpl; [done|].
  destruct (if bool_decide (account <> "") then DecodeAddress account
            else (zeroAddress, None)) as [decoded [e|]]; simpl; [done|].
  destruct (AssignGroupID_range_spec growslice m txns account decoded gid
              Hvalid (slice_len txns) 0 nilSlice m ltac:(lia)
              (allocated_since_refl m)) as [(_ & Hwf & Hfresh) _].
  destruct (AssignGroupID_range _ _ _ _ _ _ _ _ _). simpl in *. done.
Qed.

End GroupResults.

Lemma AssignGroupID_error_returns_nil_witness :
  let r :=
    @AssignGroupID sample.decls sample.codec sample.signer sample.growslice
      sample.txns "SHORT" sample.store in
  fst (fst r) = nilSlice /\ snd r = sample.store.
Proof.
  intros r.
  pose proof (@AssignGroupID_error_returns_nil sample.decls sample.codec
                sample.signer sample.growslice sample.txns "SHORT"
                sample.store) as Herr.
  destruct Herr as (Hnil & Hstore & _); [vm_compute; eauto|].
  split; [exact Hnil | exact Hstore].
Defined.

Lemma AssignGroupID_nothing_selected_witness :
  let account :=
    "CCCCCCCCCCCCCCCCCCCCCCCCCCCCCCCCCCCCCCCCCCCCCCCCCCCCCCCCCC" in
  fst (fst (@AssignGroupID sample.decls sample.codec sample.signer
              sample.growslice sample.txns account sample.store))
  = nilSlice
  /\ snd (@AssignGroupID sample.decls sample.codec sample.signer
            sample.growslice sample.txns account sample.store)
     = sample.store.
Proof.
  apply (@AssignGroupID_nothing_selected sample.decls sample.codec
           sample.signer sample.growslice).
  - exact sample_txns_valid.
  - repeat constructor; intros [Hacc|Hsender]; discriminate.
Defined.

Lemma AssignGroupID_result_fresh_witness :
  let r :=
    @AssignGroupID sample.decls sample.codec sample.signer sample.growslice
      sample.txns sample.addrA sample.store in
  slice_valid (snd r) (fst (fst r))
  /\ match fst (fst r) with
     | nilSlice => True
     | Slice a _ _ _ => a ∉ dom sample.store
     end.
Proof.
  apply (@AssignGroupID_result_fresh sample.decls sample.codec sample.signer
           sample.growslice).
  exact sample_txns_valid.
Defined.

(** ** The application builders *)

Section ElementSliceFacts.
Context {A : Type}.

Lemma length_slice_elems_of (m : gmap loc (list A)) (s : slice) :
  slice_valid_in m s -> length (slice_elems_of m s) = slice_len s.
Proof.
  destruct s as [|a off len cap]; simpl; [done|].
  intros (Hle & arr & Harr & Hlen). rewrite Harr. simpl.
  rewrite length_take, length_drop. lia.
Qed.

Lemma slice_store_out_of_range (m : gmap loc (list A)) (s : slice)
  (i : nat) (x : A) :
  (slice_len s <= i)%nat -> slice_store m s i x = Panic indexOutOfRange.
Proof.
  destruct s as [|a off len cap]; simpl; [done|].
  intros Hi. rewrite bool_decide_eq_false_2 by lia. done.
Qed.

(** An indexed store within the length replaces that element of the
    slice and keeps the slice well formed. *)
Lemma slice_store_in_range (m : gmap loc (list A)) (s : slice) (i : nat)
  (x : A) :
  slice_valid_in m s -> (i < slice_len s)%nat ->
  exists m' : gmap loc (list A),
    slice_store m s i x = Done m'
    /\ slice_valid_in m' s
    /\ slice_elems_of m' s = <[i := x]> (slice_elems_of m s).
Proof.
  destruct s as [|a off len cap]; simpl; [lia|].
  intros (Hle & arr & Harr & Hlen) Hi.
  rewrite bool_decide_eq_true_2 by lia. eexists. split; [done|].
  rewrite Harr. simpl. split.
  - split; [lia|]. eexists. rewrite lookup_insert_eq. split; [done|].
    rewrite length_insert. lia.
  - rewrite lookup_insert_eq. simpl.
    rewrite drop_insert_ge by lia.
    replace (off + i - off)%nat with i by lia.
    rewrite take_insert_lt by lia. done.
Qed.

End ElementSliceFacts.

Section BuilderArgs.
Context {D : Decls} {F : AppCallFields} {B : base64.StdEncoding}.

Local Abbreviation Builders := (gmap loc ApplicationBaseTransactionBuilder).
Local Abbreviation ArgArrays := (gmap loc (list (list byte))).

Lemma builder_ApplicationArgs_set (s : slice)
  (b : ApplicationBaseTransactionBuilder) :
  builder_ApplicationArgs (builder_set_ApplicationArgs s b) = s.
Proof.
  unfold builder_ApplicationArgs, builder_set_ApplicationArgs. simpl.
  apply ApplicationArgs_set_ApplicationArgs.
Qed.

(** The loop over strings that all decode and fit: each decoded value
    lands at its index, in order. *)
Lemma argsBase64Encoded_range_decoded (l : loc) (hb : Builders)
  (b : ApplicationBaseTransactionBuilder) (rest : list string) :
  hb !! l = Some b ->
  forall (pre : list string) (i : nat) (m : ArgArrays),
    slice_valid_in m (builder_ApplicationArgs b) ->
    Forall (fun arg => snd (base64.DecodeString arg) = None) pre ->
    (i + length pre <= slice_len (builder_ApplicationArgs b))%nat ->
    exists m' : ArgArrays,
      argsBase64Encoded_range (Some l) hb i (pre ++ rest) m
      = argsBase64Encoded_range (Some l) hb (i + length pre) rest m'
      /\ slice_valid_in m' (builder_ApplicationArgs b)
      /\ slice_elems_of m' (builder_ApplicationArgs b)
         = take i (slice_elems_of m (builder_ApplicationArgs b))
           ++ map (fun arg => fst (base64.DecodeString arg)) pre
           ++ drop (i + length pre)
                (slice_elems_of m (builder_ApplicationArgs b)).
Proof.
  intros Hb pre. induction pre as [|arg pre IH]; intros i m Hvalid Hpre Hfit.
  - exists m. simpl. rewrite Nat.add_0_r, take_drop. done.
  - apply Forall_cons in Hpre as [Harg Hpre]. simpl in Hfit |- *.
    destruct (base64.DecodeString arg) as [argB err]. simpl in Harg.
    subst err. rewrite Hb.
    destruct (slice_store_in_range m (builder_ApplicationArgs b) i argB
                Hvalid ltac:(lia)) as (m1 & -> & Hvalid1 & Helems1).
    destruct (IH (i + 1)%nat m1 Hvalid1 Hpre ltac:(lia))
      as (m' & Hrun & Hvalid' & Helems').
    exists m'. split; [|split; [exact Hvalid'|]].
    + rewrite Hrun. f_equal. lia.
    + rewrite Helems', Helems1. simpl.
      pose proof (length_slice_elems_of m _ Hvalid) as Hlen.
      replace (i + 1)%nat with (Datatypes.S i) by lia.
      rewrite take_insert_lt by lia.
      rewrite drop_insert_lt by lia.
      assert (i < length (slice_elems_of m (builder_ApplicationArgs b)))%nat
        as Hi by lia.
      destruct (lookup_lt_is_Some_2 _ _ Hi) as [old Hold].
      rewrite (take_S_r _ _ _ Hold), insert_app_r_alt
        by (rewrite length_take; lia).
      rewrite length_take. replace (i - i `min` _)%nat with 0%nat by lia.
      simpl. rewrite <- app_assoc. simpl.
      replace (i + Datatypes.S (length pre))%nat
        with (Datatypes.S (i + length pre)) by lia.
      done.
Qed.

(** When every string decodes and the builder's slice has room for them,
    [argsBase64Encoded] returns its receiver, the first arguments of the
    builder are the decoded strings, in order, and the arguments beyond
    them are the old ones: the number of arguments never changes. *)
Theorem argsBase64Encoded_success (l : loc) (hb : Builders)
  (b : ApplicationBaseTransactionBuilder) (applicationArgs : list string)
  (m : ArgArrays) :
  hb !! l = Some b ->
  slice_valid_in m (builder_ApplicationArgs b) ->
  Forall (fun arg => snd (base64.DecodeString arg) = None) applicationArgs ->
  (length applicationArgs <= slice_len (builder_ApplicationArgs b))%nat ->
  exists m' : ArgArrays,
    argsBase64Encoded (Some l) applicationArgs hb m = Done (Some l, m')
    /\ slice_elems_of m' (builder_ApplicationArgs b)
       = map (fun arg => fst (base64.DecodeString arg)) applicationArgs
         ++ drop (length applicationArgs)
              (slice_elems_of m (builder_ApplicationArgs b)).
Proof.
  intros Hb Hvalid Hall Hfit.
  destruct (argsBase64Encoded_range_decoded l hb b [] Hb applicationArgs 0 m
              Hvalid Hall ltac:(lia)) as (m' & Hrun & _ & Helems).
  exists m'. unfold argsBase64Encoded.
  rewrite <- (app_nil_r applicationArgs) at 1. rewrite Hrun.
  split; [done|]. rewrite Helems. done.
Qed.

(** A string that does not decode ends [argsBase64Encoded] with a nil
    result, not an error value, and what came before it has already
    been stored: the first arguments of the builder are the decoded
    strings that preceded the bad one. *)
Theorem argsBase64Encoded_malformed (l : loc) (hb : Builders)
  (b : ApplicationBaseTransactionBuilder) (pre : list string)
  (bad : string) (post : list string) (m : ArgArrays) :
  hb !! l = Some b ->
  slice_valid_in m (builder_ApplicationArgs b) ->
  Forall (fun arg => snd (base64.DecodeString arg) = None) pre ->
  is_Some (snd (base64.DecodeString bad)) ->
  (length pre <= slice_len (builder_ApplicationArgs b))%nat ->
  exists m' : ArgArrays,
    argsBase64Encoded (Some l) (pre ++ bad :: post) hb m = Done (None, m')
    /\ slice_elems_of m' (builder_ApplicationArgs b)
       = map (fun arg => fst (base64.DecodeString arg)) pre
         ++ drop (length pre)
              (slice_elems_of m (builder_ApplicationArgs b)).
Proof.
  intros Hb Hvalid Hall [e Hbad] Hfit.
  destruct (argsBase64Encoded_range_decoded l hb b (bad :: post) Hb pre 0 m
              Hvalid Hall ltac:(lia)) as (m' & Hrun & _ & Helems).
  exists m'. unfold argsBase64Encoded. rewrite Hrun. simpl.
  destruct (base64.DecodeString bad) as [argB err]. simpl in Hbad.
  subst err. split; [done|]. rewrite Helems. done.
Qed.

(** [argsBase64Encoded] never grows the builder's slice: given more
    strings than the builder holds arguments, it panics with an index
    out of range as soon as the strings before that index have decoded.
    On a builder whose arguments were never set, any input whose first
    string decodes panics. *)
Theorem argsBase64Encoded_out_of_range (l : loc) (hb : Builders)
  (b : ApplicationBaseTransactionBuilder) (applicationArgs : list string)
  (m : ArgArrays) :
  hb !! l = Some b ->
  slice_valid_in m (builder_ApplicationArgs b) ->
  (slice_len (builder_ApplicationArgs b) < length applicationArgs)%nat ->
  Forall (fun arg => snd (base64.DecodeString arg) = None)
    (take (slice_len (builder_ApplicationArgs b) + 1) applicationArgs) ->
  argsBase64Encoded (Some l) applicationArgs hb m = Panic indexOutOfRange.
Proof.
  intros Hb Hvalid Hmore Hall.
  set (n := slice_len (builder_ApplicationArgs b)) in *.
  destruct (lookup_lt_is_Some_2 applicationArgs n Hmore) as [arg Harg].
  assert (applicationArgs
          = take n applicationArgs ++ arg :: drop (Datatypes.S n) applicationArgs)
    as Hsplit by (symmetry; apply take_drop_middle, Harg).
  replace (n + 1)%nat with (Datatypes.S n) in Hall by lia.
  rewrite (take_S_r _ _ _ Harg) in Hall.
  apply Forall_app in Hall as [Hpre Harg'].
  apply Forall_cons in Harg' as [Harg' _].
  assert (length (take n applicationArgs) = n) as Hlen
    by (rewrite length_take; lia).
  destruct (argsBase64Encoded_range_decoded l hb b
              (arg :: drop (Datatypes.S n) applicationArgs) Hb
              (take n applicationArgs) 0 m Hvalid Hpre ltac:(lia))
    as (m' & Hrun & _ & _).
  unfold argsBase64Encoded. rewrite Hsplit, Hrun, Hlen. simpl.
  destruct (base64.DecodeString arg) as [argB err]. simpl in Harg'.
  subst err. rewrite Hb.
  rewrite slice_store_out_of_range by (fold n; lia). done.
Qed.

(** The builder keeps the very slice [args] was given, so a later
    [argsBase64Encoded] writes through it: the caller's own slice holds
    the decoded strings afterwards. *)
Theorem args_then_argsBase64Encoded (l : loc) (hb : Builders)
  (b : ApplicationBaseTransactionBuilder) (given : slice)
  (applicationArgs : list string) (m : ArgArrays) :
  hb !! l = Some b ->
  slice_valid_in m given ->
  Forall (fun arg => snd (base64.DecodeString arg) = None) applicationArgs ->
  (length applicationArgs <= slice_len given)%nat ->
  exists (hb' : Builders) (m' : ArgArrays),
    args (Some l) given hb = Done (Some l, hb')
    /\ argsBase64Encoded (Some l) applicationArgs hb' m = Done (Some l, m')
    /\ slice_elems_of m' given
       = map (fun arg => fst (base64.DecodeString arg)) applicationArgs
         ++ drop (length applicationArgs) (slice_elems_of m given).
Proof.
  intros Hb Hvalid Hall Hfit.
  exists (<[l := builder_set_ApplicationArgs given b]> hb).
  pose proof (builder_ApplicationArgs_set given b) as Hget.
  destruct (argsBase64Encoded_range_decoded l
              (<[l := builder_set_ApplicationArgs given b]> hb)
              (builder_set_ApplicationArgs given b) []
              (lookup_insert_eq _ _ _) applicationArgs 0 m)
    as (m' & Hrun & _ & Helems).
  - rewrite Hget. exact Hvalid.
  - exact Hall.
  - rewrite Hget. simpl. exact Hfit.
  - exists m'. rewrite Hget in Helems. split; [|split].
    + unfold args. rewrite Hb. done.
    + unfold argsBase64Encoded.
      rewrite <- (app_nil_r applicationArgs) at 1. rewrite Hrun. done.
    + rewrite Helems. done.
Qed.

End BuilderArgs.

Lemma sample_threeArgs_valid :
  slice_valid_in sample_app.argArrays sample_app.threeArgs.
Proof.
  split; [lia|]. eexists. split; [vm_compute; reflexivity|simpl; lia].
Qed.

Lemma argsBase64Encoded_success_witness :
  exists m' : gmap loc (list (list byte)),
    @argsBase64Encoded sample_app.decls sample_app.fields sample.stdEncoding
      (Some 1%positive) ["/w=="; "AA=="]
      (sample_app.buildersWith sample_app.threeArgs) sample_app.argArrays
    = Done (Some 1%positive, m')
    /\ slice_elems_of m' sample_app.threeArgs
       = [["255"%byte]; ["000"%byte]; ["003"%byte]].
Proof.
  exact (@argsBase64Encoded_success sample_app.decls sample_app.fields
           sample.stdEncoding 1%positive
           (sample_app.buildersWith sample_app.threeArgs)
           (sample_app.builderWith sample_app.threeArgs) ["/w=="; "AA=="]
           sample_app.argArrays eq_refl sample_threeArgs_valid
           ltac:(repeat constructor) ltac:(simpl; lia)).
Defined.

Lemma argsBase64Encoded_malformed_witness :
  exists m' : gmap loc (list (list byte)),
    @argsBase64Encoded sample_app.decls sample_app.fields sample.stdEncoding
      (Some 1%positive) ["/w=="; "!"; "AA=="]
      (sample_app.buildersWith sample_app.threeArgs) sample_app.argArrays
    = Done (None, m')
    /\ slice_elems_of m' sample_app.threeArgs
       = [["255"%byte]; ["002"%byte]; ["003"%byte]].
Proof.
  exact (@argsBase64Encoded_malformed sample_app.decls sample_app.fields
           sample.stdEncoding 1%positive
           (sample_app.buildersWith sample_app.threeArgs)
           (sample_app.builderWith sample_app.threeArgs) ["/w=="] "!"
           ["AA=="] sample_app.argArrays eq_refl sample_threeArgs_valid
           ltac:(repeat constructor) ltac:(vm_compute; eauto)
           ltac:(simpl; lia)).
Defined.

Lemma argsBase64Encoded_out_of_range_witness :
  @argsBase64Encoded sample_app.decls sample_app.fields sample.stdEncoding
    (Some 1%positive) ["AA=="] (sample_app.buildersWith nilSlice)
    sample_app.argArrays
  = Panic indexOutOfRange.
Proof.
  apply (@argsBase64Encoded_out_of_range sample_app.decls sample_app.fields
           sample.stdEncoding 1%positive (sample_app.buildersWith nilSlice)
           sample_app.newBuilder).
  - reflexivity.
  - exact I.
  - simpl. lia.
  - repeat constructor.
Defined.

Lemma args_then_argsBase64Encoded_witness :
  exists (hb' : gmap loc (@ApplicationBaseTransactionBuilder sample_app.decls))
    (m' : gmap loc (list (list byte))),
    @args sample_app.decls sample_app.fields (Some 1%positive)
      sample_app.threeArgs (sample_app.buildersWith nilSlice)
    = Done (Some 1%positive, hb')
    /\ @argsBase64Encoded sample_app.decls sample_app.fields
         sample.stdEncoding (Some 1%positive) ["/w=="] hb'
         sample_app.argArrays
       = Done (Some 1%positive, m')
    /\ slice_elems_of m' sample_app.threeArgs
       = [["255"%byte]; ["002"%byte]; ["003"%byte]].
Proof.
  exact (@args_then_argsBase64Encoded sample_app.decls sample_app.fields
           sample.stdEncoding 1%positive (sample_app.buildersWith nilSlice)
           sample_app.newBuilder sample_app.threeArgs ["/w=="]
           sample_app.argArrays eq_refl sample_threeArgs_valid
           ltac:(repeat constructor) ltac:(simpl; lia)).
Defined.

(** ** Runs in the concrete environment *)

(** The example of the specification: a payment at the rate 10 whose
    signed encoding takes 128 bytes carries the fee 1280. *)
Example MakePaymentTxn_sample_fee :
  let r :=
    @MakePaymentTxn sample.decls sample.codec sample.signer sample.addrA
      sample.addrB 10 5000000 1000 2000 [] "" "testnet-v1.0" (zeroBytes 32)
      0%nat in
  snd (fst r) = None
  /\ Fee (Header_ (fst (fst r))) = 1280
  /\ Receiver (PaymentTxnFields_ (fst (fst r)))
     = fst (@DecodeAddress sample.codec sample.addrB)
  /\ CloseRemainderTo (PaymentTxnFields_ (fst (fst r))) = zeroAddress.
Proof. vm_compute. repeat split. Qed.

(** A flat fee below the floor is raised to it. *)
Example MakePaymentTxnWithFlatFee_sample_fee :
  let r :=
    @MakePaymentTxnWithFlatFee sample.decls sample.codec sample.signer
      sample.addrA sample.addrB 7 5000000 1000 2000 [] "" "testnet-v1.0"
      (zeroBytes 32) 0%nat in
  snd (fst r) = None /\ Fee (Header_ (fst (fst r))) = 1000.
Proof. vm_compute. repeat split. Qed.

(** An address that does not decode: the error and the zero record. *)
Example MakePaymentTxn_sample_bad_address :
  fst (@MakePaymentTxn sample.decls sample.codec sample.signer "SHORT"
         sample.addrB 10 5000000 1000 2000 [] "" "testnet-v1.0"
         (zeroBytes 32) 0%nat)
  = (zeroTransaction, Some "decoded address is the wrong length").
Proof. vm_compute. reflexivity. Qed.

Example byte32FromBase64_sample :
  @byte32FromBase64 sample.stdEncoding sample.zeros32_b64
  = (zeroBytes 32, None)
  /\ @byte32FromBase64 sample.stdEncoding "AAAA"
     = (zeroBytes 32, Some "Input is not 32 bytes")
  /\ @byte32FromBase64 sample.stdEncoding "AAA"
     = (zeroBytes 32, Some "illegal base64 data").
Proof. vm_compute. repeat split. Qed.

(** Senders A, B, A filtered by A: the first and the third payment come
    back, in a new array, with the group set; the input array keeps its
    three payments with no group. *)
Example AssignGroupID_sample_run :
  let run :=
    @AssignGroupID sample.decls sample.codec sample.signer sample.growslice
      sample.txns sample.addrA sample.store in
  fst run = (Slice 3%positive 0 2 3, None)
  /\ slice_elems (snd run) (fst (fst run))
     = map (set_Group (fst (sample.groupID sample.group)))
         [sample.payment sample.addrA 1; sample.payment sample.addrA 3]
  /\ slice_elems (snd run) sample.txns = sample.group.
Proof. vm_compute. repeat split. Qed.
